(** * fin-doc: the payment-intent lifecycle of [app/main.py]

    A shallow embedding of the two request handlers that touch the
    [payments] table,

      - [initiate_payment]  (POST /payments/initiate), and
      - [stripe_webhook]    (POST /webhooks/stripe),

    together with the part of [app/db.py] they run against.

    Modelling decisions.

    - The relational store is a record of tables, each table the list of its
      rows in insertion order.  [database.fetch_one] and [database.execute]
      are state-passing operations on it.  A Python exception does not roll
      the store back (every [execute] is its own statement), so a handler is
      a function [Database -> result A * Database]: the store after the call
      is there whether the call returned or raised.
    - The Stripe SDK ([import stripe]) is not code of this repository.  It is
      a record of two functions, [PaymentIntent_create] and
      [Webhook_construct_event], whose results enumerate what the handlers
      distinguish: the value returned, or the exception class raised
      together with [str(e)].  Theorems quantify over every such record, in
      the same way the tests patch [app.main.stripe].
    - [STRIPE_WEBHOOK_SECRET] is a module global read from the environment at
      import time; it is a parameter of [stripe_webhook].
    - [print] calls are left out: what they write reaches neither the
      response nor the store.

    The second half of the file embeds the rest of [app/main.py]
    ([register_user], [login_for_access_token], [get_my_profile],
    [create_product], [create_transaction], [get_transactions_for_user])
    and [app/security.py] ([hash_password], [verify_password],
    [create_access_token], [decode_token], [get_current_user]).

    - passlib and python-jose are records of functions, as Stripe is; a
      call that raises is [None].  Python's [int] on a string is a
      parameter.
    - The routes bind unvalidated values to typed columns.  An [Integer]
      column holds 32-bit integers, and the driver raises [DataError] for
      any other; what a [String(n)] column and a [DECIMAL(19, 2)] column
      keep of a value, or that they refuse it, are parameters.
    - What FastAPI does before a handler runs is outside the model: the
      validation of request bodies, and [oauth2_scheme], which takes the
      bearer token from the Authorization header.  A route that
      [Depends(get_current_user)] is the handler behind
      [get_current_user], from the token on.
    - [HTTPException] carries its status and detail; the
      [WWW-Authenticate] header of the 401s is left out. *)

From Stdlib Require Import ZArith List String Ascii Bool Lia DecimalString.
Import ListNotations.

Local Open Scope Z_scope.
Local Open Scope string_scope.

(* ================================================================== *)
(** ** app/db.py: the schema *)

(** [users = Table("users", ...)] *)
Module users.
Record row : Type := mk {
  id : Z;
  email : string;
  hashed_password : string
}.
End users.

(** [transactions = Table("transactions", ...)]; [amount] is a
    [DECIMAL(19, 2)], kept as its number of hundredths. *)
Module transactions.
Record row : Type := mk {
  id : Z;
  user_id : string;
  amount : Z;
  description : string
}.
End transactions.

(** [products = Table("products", ...)] *)
Module products.
Record row : Type := mk {
  id : Z;
  name : string;
  price_in_pence : Z
}.
End products.

(** [payments = Table("payments", ...)]; [stripe_payment_intent_id] is
    declared [unique=True]. *)
Module payments.
Record row : Type := mk {
  id : Z;
  product_id : Z;
  user_id : string;
  stripe_payment_intent_id : string;
  status : string;
  amount_in_pence : Z
}.

(** [UPDATE payments SET status = s] on one row. *)
Definition set_status (s : string) (r : row) : row :=
  mk (id r) (product_id r) (user_id r) (stripe_payment_intent_id r) s
     (amount_in_pence r).
End payments.

(** The store behind [database]. *)
Record Database : Type := mkDatabase {
  users_rows : list users.row;
  transactions_rows : list transactions.row;
  products_rows : list products.row;
  payments_rows : list payments.row
}.

Definition with_payments (db : Database) (ps : list payments.row) : Database :=
  mkDatabase (users_rows db) (transactions_rows db) (products_rows db) ps.

(* ================================================================== *)
(** ** Exceptions and the handler monad *)

Inductive exn : Type :=
| HTTPException (status_code : Z) (detail : string)
    (* fastapi.HTTPException *)
| IntegrityError (constraint : string)
    (* raised by the store on a violated UNIQUE constraint; no handler
       catches it *)
| DataError (message : string).
    (* raised by the driver or the store on a value its column cannot
       hold; no handler catches it by name *)

Inductive result (A : Type) : Type :=
| Return (a : A)
| Raise (e : exn).
Arguments Return {A} a.
Arguments Raise {A} e.

Definition M (A : Type) : Type := Database -> result A * Database.

Definition ret {A} (a : A) : M A := fun db => (Return a, db).

Definition raise {A} (e : exn) : M A := fun db => (Raise e, db).

Definition bind {A B} (m : M A) (k : A -> M B) : M B :=
  fun db =>
    match m db with
    | (Return a, db') => k a db'
    | (Raise e, db') => (Raise e, db')
    end.

Declare Scope handler_scope.
Delimit Scope handler_scope with handler.
Notation "x <- m ;; k" := (bind m (fun x => k))
  (at level 61, m at next level, right associativity) : handler_scope.
Notation "m ;; k" := (bind m (fun _ => k))
  (at level 61, right associativity) : handler_scope.
Local Open Scope handler_scope.

(* ================================================================== *)
(** ** The [database] operations the two handlers issue *)

(** The values of an [Integer] column, PostgreSQL's 32-bit INTEGER. *)
Definition int32 (n : Z) : bool :=
  ((-2147483648 <=? n) && (n <=? 2147483647))%Z.

(** What the driver raises for an integer it cannot bind to an [Integer]
    column. *)
Definition out_of_int32 : exn := DataError "value out of int32 range".

(** [database.fetch_one(products.select().where(products.c.id == pid))]:
    the row with the key; with no such row, [None] for a key the column
    can hold, and the driver's [DataError] for one it cannot (a key
    outside the INTEGER range is the key of no stored row, and is refused
    when it is bound to the query). *)
Definition fetch_one_product (pid : Z) : M (option products.row) :=
  fun db =>
    match find (fun p => products.id p =? pid)%Z (products_rows db) with
    | Some product => (Return (Some product), db)
    | None => if int32 pid then (Return None, db) else (Raise out_of_int32, db)
    end.

(** The primary key the store gives a new row: one more than the largest
    key in use. *)
Definition next_id (ids : list Z) : Z := 1 + fold_right Z.max 0 ids.

(** [database.execute(payments.insert().values(...))]: refused with the
    store unchanged when the external id is already there (the UNIQUE
    constraint), else the row is appended and its key returned. *)
Definition execute_insert_payment
    (product_id : Z) (user_id stripe_payment_intent_id status : string)
    (amount_in_pence : Z) : M Z :=
  fun db =>
    if existsb
         (fun r => payments.stripe_payment_intent_id r =? stripe_payment_intent_id)
         (payments_rows db)
    then (Raise (IntegrityError "payments_stripe_payment_intent_id_key"), db)
    else
      let new_id := next_id (map payments.id (payments_rows db)) in
      (Return new_id,
       with_payments db
         (payments_rows db ++
          [payments.mk new_id product_id user_id stripe_payment_intent_id
             status amount_in_pence])).

(** One row under
    [payments.update().where(payments.c.stripe_payment_intent_id == pi).values(status=s)]. *)
Definition update_row (stripe_pi_id s : string) (r : payments.row) : payments.row :=
  if payments.stripe_payment_intent_id r =? stripe_pi_id
  then payments.set_status s r
  else r.

(** [database.execute(update_query)]; the value is the number of rows the
    WHERE clause matched. *)
Definition execute_update_status (stripe_pi_id s : string) : M Z :=
  fun db =>
    (Return
       (Z.of_nat
          (List.length
             (filter (fun r => payments.stripe_payment_intent_id r =? stripe_pi_id)
                (payments_rows db)))),
     with_payments db (map (update_row stripe_pi_id s) (payments_rows db))).

(* ================================================================== *)
(** ** The Stripe SDK, as the handlers see it *)

(** The two keys of a PaymentIntent the handler reads. *)
Record PaymentIntent : Type := mkPaymentIntent {
  pi_id : string;
  pi_client_secret : option string
}.

(** What [stripe.PaymentIntent.create(...)] does, by the [except] clause
    that receives it; [StripeError] stands for every StripeError that is
    not a CardError, [OtherException] for everything else. *)
Inductive create_outcome : Type :=
| Created (payment_intent : PaymentIntent)
| CardError (str_e : string)
| StripeError (str_e : string)
| OtherException (str_e : string).

(** [event["type"]] and [event["data"]["object"]["id"]], the two values the
    handler reads off an event; every event Stripe signs carries its object
    under [data], with the object's id. *)
Record Event : Type := mkEvent {
  ev_type : string;
  ev_data_object_id : string
}.

(** What [stripe.Webhook.construct_event(...)] does. *)
Inductive construct_outcome : Type :=
| Constructed (event : Event)
| ValueError (str_e : string)
| SignatureVerificationError (str_e : string).

Record Stripe : Type := mkStripe {
  PaymentIntent_create :
    Z -> string -> list (string * string) -> create_outcome;
      (* amount, currency, metadata *)
  Webhook_construct_event :
    string -> string -> string -> construct_outcome
      (* payload, sig_header, secret *)
}.

(* ================================================================== *)
(** ** app/main.py *)

(** Python's [str] on an [int]. *)
Definition str (n : Z) : string := NilZero.string_of_int (Z.to_int n).

Record UserOutput : Type := mkUserOutput {
  uo_id : Z;
  uo_email : string
}.

Record PaymentIntentRequest : Type := mkPaymentIntentRequest {
  product_id : Z
}.

Record PaymentIntentResponse : Type := mkPaymentIntentResponse {
  client_secret : option string;
  payment_intent_id : string
}.

(** A webhook request: the raw body and the headers, names in lower case
    as Starlette keeps them. *)
Record Request : Type := mkRequest {
  body : string;
  headers : list (string * string)
}.

(** [request.headers.get(key)] *)
Definition headers_get (request : Request) (key : string) : option string :=
  match find (fun kv => fst kv =? key) (headers request) with
  | Some kv => Some (snd kv)
  | None => None
  end.

(** Truth value of an [Optional[str]]: [None] and the empty string are
    false. *)
Definition truthy (s : option string) : bool :=
  match s with
  | None => false
  | Some v => negb (v =? "")
  end.

Definition metadata (user_id_from_token pid : Z) : list (string * string) :=
  [("user_id", str user_id_from_token); ("product_id", str pid)].

Section Handlers.

Variable stripe : Stripe.
Variable STRIPE_WEBHOOK_SECRET : string.

Definition initiate_payment
    (intent_request : PaymentIntentRequest) (current_user : UserOutput)
  : M PaymentIntentResponse :=
  product <- fetch_one_product (product_id intent_request) ;;
  match product with
  | None => raise (HTTPException 404 "Product not found")
  | Some product =>
    let amount := products.price_in_pence product in
    let user_id_from_token := uo_id current_user in
    match PaymentIntent_create stripe amount "gbp"
            (metadata user_id_from_token (product_id intent_request)) with
    | CardError e => raise (HTTPException 400 e)
    | StripeError e => raise (HTTPException 400 ("Stripe error: " ++ e))
    | OtherException e =>
        raise (HTTPException 500 ("An unexpected error occurred: " ++ e))
    | Created payment_intent =>
        execute_insert_payment
          (product_id intent_request)
          (str user_id_from_token)
          (pi_id payment_intent)
          "pending"
          amount ;;
        ret (mkPaymentIntentResponse
               (pi_client_secret payment_intent)
               (pi_id payment_intent))
    end
  end.

(** The body of the handler's response, [{"status": "success"}]. *)
Definition success : list (string * string) := [("status", "success")].

Definition stripe_webhook (request : Request) : M (list (string * string)) :=
  let payload := body request in
  let sig_header := headers_get request "stripe-signature" in
  if negb (truthy sig_header) then
    raise (HTTPException 400 "Missing Stripe-Signature header")
  else if STRIPE_WEBHOOK_SECRET =? "" then
    raise (HTTPException 500 "Webhook secret not configured")
  else
    match Webhook_construct_event stripe payload
            (match sig_header with Some s => s | None => "" end)
            STRIPE_WEBHOOK_SECRET with
    | ValueError e => raise (HTTPException 400 ("Invalid payload: " ++ e))
    | SignatureVerificationError e =>
        raise (HTTPException 400 ("Invalid signature: " ++ e))
    | Constructed event =>
        (if ev_type event =? "payment_intent.succeeded" then
           let stripe_pi_id := ev_data_object_id event in
           execute_update_status stripe_pi_id "succeeded" ;; ret tt
         else if ev_type event =? "payment_intent.payment_failed" then
           let stripe_pi_id := ev_data_object_id event in
           execute_update_status stripe_pi_id "failed" ;; ret tt
         else ret tt) ;;
        ret success
    end.

End Handlers.

(* ================================================================== *)
(** ** Vocabulary of the statements *)

(** The status a webhook event of the given type writes, if any: the two
    branches of the handler's dispatch. *)
Definition target_status (event_type : string) : option string :=
  if event_type =? "payment_intent.succeeded" then Some "succeeded"
  else if event_type =? "payment_intent.payment_failed" then Some "failed"
  else None.

(** The request carries a signature header, the signing secret is
    configured, and [construct_event] accepts the request and yields
    [event]. *)
Definition signature_valid
    (stripe : Stripe) (secret : string) (request : Request) (event : Event)
  : Prop :=
  exists sig_header,
    headers_get request "stripe-signature" = Some sig_header /\
    sig_header <> "" /\
    secret <> "" /\
    Webhook_construct_event stripe (body request) sig_header secret
      = Constructed event.

(** [PaymentIntent.create] raised. *)
Definition gateway_failed (o : create_outcome) : Prop :=
  match o with
  | Created _ => False
  | _ => True
  end.

(** Everything but [status] agrees. *)
Definition same_but_status (r r' : payments.row) : Prop :=
  payments.id r' = payments.id r /\
  payments.product_id r' = payments.product_id r /\
  payments.user_id r' = payments.user_id r /\
  payments.stripe_payment_intent_id r' = payments.stripe_payment_intent_id r /\
  payments.amount_in_pence r' = payments.amount_in_pence r.

(** [r'] is [r] as a webhook request leaves it when it matches [r]: the
    request is signature-valid for a succeeded or failed event that
    carries the external id of [r], and [r'] is [r] with the event's
    status. *)
Definition settled_by
    (stripe : Stripe) (secret : string) (request : Request)
    (r r' : payments.row) : Prop :=
  exists event s,
    signature_valid stripe secret request event /\
    target_status (ev_type event) = Some s /\
    payments.stripe_payment_intent_id r = ev_data_object_id event /\
    r' = payments.set_status s r.

(** The UNIQUE constraint on [payments.stripe_payment_intent_id]. *)
Definition unique_intent_ids (db : Database) : Prop :=
  NoDup (map payments.stripe_payment_intent_id (payments_rows db)).

(** The primary key of [products]. *)
Definition unique_product_ids (db : Database) : Prop :=
  NoDup (map products.id (products_rows db)).

(** The HTTP status a raised exception is answered with; an exception no
    handler catches is FastAPI's 500. *)
Definition http_status (e : exn) : Z :=
  match e with
  | HTTPException status_code _ => status_code
  | IntegrityError _ => 500
  | DataError _ => 500
  end.

(* ================================================================== *)
(** ** Fixtures: a patched SDK and small stores, as in tests/test_main.py *)

(** [mocker.patch] with a fixed return value or side effect. *)
Definition patched (c : create_outcome) (w : construct_outcome) : Stripe :=
  mkStripe (fun _ _ _ => c) (fun _ _ _ => w).

Definition widget : products.row := products.mk 1 "Widget" 1999.

Definition payer : UserOutput := mkUserOutput 1 "payment_user@example.com".

Definition db_catalog : Database :=
  mkDatabase [users.mk 1 "payment_user@example.com" "$2b$12$hash"] []
    [widget] [].

Definition payment_pi_1 (status : string) : payments.row :=
  payments.mk 1 1 "1" "pi_1" status 1999.

Definition db_with (status : string) : Database :=
  with_payments db_catalog [payment_pi_1 status].

Definition pi_1 : PaymentIntent := mkPaymentIntent "pi_1" (Some "cs_1").

Definition whsec : string := "whsec_test_123".

Definition signed (payload : string) : Request :=
  mkRequest payload [("content-type", "application/json");
                     ("stripe-signature", "t=1700000000,v1=5257a869")].

Definition unsigned (payload : string) : Request :=
  mkRequest payload [("content-type", "application/json")].

Definition succeeded_pi_1 : Event := mkEvent "payment_intent.succeeded" "pi_1".

Definition failed_pi_1 : Event :=
  mkEvent "payment_intent.payment_failed" "pi_1".

Definition delivering (event : Event) : Stripe :=
  patched (OtherException "not patched") (Constructed event).

(* ================================================================== *)
(** ** The other tables of app/db.py

    The routes below bind values the application has not validated: any
    [int], any [str], any [Decimal].  An [Integer] column holds the
    integers of [int32].  What a [String(n)] column makes of a [str] and a
    [DECIMAL(19, 2)] column of a [Decimal] is the store's business: the
    inserts take it as a function, [varchar] and [to_numeric], that gives
    the value kept or [None] when the store refuses the value. *)

Definition with_users (db : Database) (us : list users.row) : Database :=
  mkDatabase us (transactions_rows db) (products_rows db) (payments_rows db).

Definition with_transactions (db : Database) (ts : list transactions.row)
  : Database :=
  mkDatabase (users_rows db) ts (products_rows db) (payments_rows db).

Definition with_products (db : Database) (ps : list products.row) : Database :=
  mkDatabase (users_rows db) (transactions_rows db) ps (payments_rows db).

(** [database.execute(users.insert().values(...))]; [email] is declared
    [unique=True]: a second row with an email already there is refused. *)
Definition execute_insert_user (email hashed_password : string) : M Z :=
  fun db =>
    if existsb (fun u => users.email u =? email) (users_rows db)
    then (Raise (IntegrityError "ix_users_email"), db)
    else
      let new_id := next_id (map users.id (users_rows db)) in
      (Return new_id,
       with_users db
         (users_rows db ++ [users.mk new_id email hashed_password])).

(** [database.fetch_one(users.select().where(users.c.email == email))] *)
Definition fetch_one_user_by_email (email : string) : M (option users.row) :=
  fun db => (Return (find (fun u => users.email u =? email) (users_rows db)), db).

(** [database.fetch_one(users.select().where(users.c.id == id))]: as
    [fetch_one_product], with the driver's [DataError] for a key outside
    the INTEGER range. *)
Definition fetch_one_user_by_id (id : Z) : M (option users.row) :=
  fun db =>
    match find (fun u => users.id u =? id)%Z (users_rows db) with
    | Some db_user => (Return (Some db_user), db)
    | None => if int32 id then (Return None, db) else (Raise out_of_int32, db)
    end.

(** What the store raises for a string its [String(n)] column refuses,
    and for a [Decimal] its [DECIMAL(19, 2)] column refuses. *)
Definition value_too_long : exn :=
  DataError "value too long for type character varying".

Definition numeric_overflow : exn := DataError "numeric field overflow".

(** [database.execute(products.insert().values(...))]: refused with the
    store unchanged when the price is outside [int32] or the name is not
    accepted by [String(100)]; else the row is appended, with the name as
    the column keeps it, and its key returned. *)
Definition execute_insert_product
    (varchar : nat -> string -> option string)
    (name : string) (price_in_pence : Z) : M Z :=
  fun db =>
    if int32 price_in_pence then
      match varchar 100%nat name with
      | None => (Raise value_too_long, db)
      | Some name_kept =>
          let new_id := next_id (map products.id (products_rows db)) in
          (Return new_id,
           with_products db
             (products_rows db ++
              [products.mk new_id name_kept price_in_pence]))
      end
    else (Raise out_of_int32, db).

(** [database.execute(transactions.insert().values(...))]; [amount] is
    what [DECIMAL(19, 2)] makes of the [Decimal] bound, [None] when it
    refuses it.  Refused with the store unchanged when one of the three
    values is; else the row is appended, with the values as the columns
    keep them, and its key returned. *)
Definition execute_insert_transaction
    (varchar : nat -> string -> option string)
    (user_id : string) (amount : option Z) (description : string) : M Z :=
  fun db =>
    match varchar 50%nat user_id, amount, varchar 255%nat description with
    | Some user_id_kept, Some amount_kept, Some description_kept =>
        let new_id :=
          next_id (map transactions.id (transactions_rows db)) in
        (Return new_id,
         with_transactions db
           (transactions_rows db ++
            [transactions.mk new_id user_id_kept amount_kept
               description_kept]))
    | _, None, _ => (Raise numeric_overflow, db)
    | _, _, _ => (Raise value_too_long, db)
    end.

(** [database.fetch_all(transactions.select().where(transactions.c.user_id == user_id))] *)
Definition fetch_all_transactions (user_id : string)
  : M (list transactions.row) :=
  fun db =>
    (Return
       (filter (fun t => transactions.user_id t =? user_id)
          (transactions_rows db)),
     db).

(* ================================================================== *)
(** ** Handlers that call into Python and library code

    The payment handlers raise [HTTPException] or let the store's
    [IntegrityError] through, and nothing else.  The rest of the
    application also calls [int], passlib and python-jose outside any
    [try]: what those raise reaches FastAPI as it is.  [Crashed] is such an
    exception, named by the call that raised it. *)

Inductive outcome (A : Type) : Type :=
| Value (a : A)
| Raised (e : exn)
| Crashed (raised_by : string).
Arguments Value {A} a.
Arguments Raised {A} e.
Arguments Crashed {A} raised_by.

Definition H (A : Type) : Type := Database -> outcome A * Database.

Definition value {A} (a : A) : H A := fun db => (Value a, db).

Definition raised {A} (e : exn) : H A := fun db => (Raised e, db).

Definition crashed {A} (raised_by : string) : H A :=
  fun db => (Crashed raised_by, db).

Definition and_then {A B} (m : H A) (k : A -> H B) : H B :=
  fun db =>
    match m db with
    | (Value a, db') => k a db'
    | (Raised e, db') => (Raised e, db')
    | (Crashed c, db') => (Crashed c, db')
    end.

(** A payment handler, or a store operation, inside the wider handlers. *)
Definition lift {A} (m : M A) : H A :=
  fun db =>
    match m db with
    | (Return a, db') => (Value a, db')
    | (Raise e, db') => (Raised e, db')
    end.

(** [try: m  except Exception: handler] around a store operation. *)
Definition try_except {A} (m : M A) (handler : exn -> H A) : H A :=
  fun db =>
    match m db with
    | (Return a, db') => (Value a, db')
    | (Raise e, db') => handler e db'
    end.

Declare Scope route_scope.
Delimit Scope route_scope with route.
Notation "x <- m ;; k" := (and_then m (fun x => k))
  (at level 61, m at next level, right associativity) : route_scope.

(* ================================================================== *)
(** ** passlib and python-jose, as the application sees them *)

(** [pwd_context.hash] and [pwd_context.verify]: the value returned, or
    [None] when the call raises. *)
Record CryptContext : Type := mkCryptContext {
  pwd_hash : string -> option string;
  pwd_verify : string -> string -> option bool
}.

(** A value of a token's payload: a string, or a number (the [exp]
    timestamp). *)
Inductive claim : Type :=
| Str (s : string)
| Num (n : Z).

(** A Python [dict] with string keys, in insertion order. *)
Definition dict : Type := list (string * claim).

(** [d.get(key)] *)
Definition dict_get (d : dict) (key : string) : option claim :=
  match find (fun kv => fst kv =? key) d with
  | Some kv => Some (snd kv)
  | None => None
  end.

(** [d.update({key: v})]: the value of a key already there is replaced in
    place, a new key goes last. *)
Fixpoint dict_update (d : dict) (key : string) (v : claim) : dict :=
  match d with
  | [] => [(key, v)]
  | (k, v') :: d' =>
      if k =? key then (key, v) :: d' else (k, v') :: dict_update d' key v
  end.

(** [jwt.encode(claims, key, algorithm=...)]: the token, or [None] when the
    call raises.  [jwt.decode(token, key, algorithms=[...])]: the payload,
    or [None] when it raises [JWTError] (a bad signature, an expired token,
    a malformed one). *)
Record Jose : Type := mkJose {
  jwt_encode : dict -> string -> string -> option string;
  jwt_decode : string -> string -> list string -> option dict
}.

(* ================================================================== *)
(** ** app/security.py *)

Definition ACCESS_TOKEN_EXPIRE_MINUTES : Z := 30.

(** The exception [get_current_user] raises on every failure. *)
Definition credentials_exception : exn :=
  HTTPException 401 "Could not validate credentials".

Local Open Scope route_scope.

Section Security.

Variable pwd_context : CryptContext.
Variable jwt : Jose.
Variable JWT_SECRET_KEY : string.
Variable JWT_ALGORITHM : string.

(** Python's [int] on a [str]; [None] is its [ValueError]. *)
Variable int : string -> option Z.

Definition hash_password (plain_password : string) : option string :=
  pwd_hash pwd_context plain_password.

Definition verify_password (plain_password hashed_password : string)
  : option bool :=
  pwd_verify pwd_context plain_password hashed_password.

(** [now] is [datetime.now(timezone.utc)] in whole seconds since the epoch,
    the form in which [exp] is encoded. *)
Definition create_access_token (now : Z) (data_to_encode : dict)
  : option string :=
  let to_encode := data_to_encode in
  let expire := now + ACCESS_TOKEN_EXPIRE_MINUTES * 60 in
  let to_encode := dict_update to_encode "exp" (Num expire) in
  jwt_encode jwt to_encode JWT_SECRET_KEY JWT_ALGORITHM.

Definition decode_token (token : string) : option dict :=
  jwt_decode jwt token JWT_SECRET_KEY [JWT_ALGORITHM].

(** [int(user_id)] on a value of the payload. *)
Definition int_of_claim (c : claim) : option Z :=
  match c with
  | Str s => int s
  | Num n => Some n
  end.

Definition get_current_user (token : string) : H users.row :=
  match decode_token token with
  | None => raised credentials_exception
  | Some payload =>
    match dict_get payload "sub" with
    | None => raised credentials_exception
    | Some user_id =>
      match int_of_claim user_id with
      | None => crashed "int"
      | Some id =>
        db_user <- lift (fetch_one_user_by_id id) ;;
        match db_user with
        | None => raised credentials_exception
        | Some db_user => value db_user
        end
      end
    end
  end.

End Security.

(* ================================================================== *)
(** ** app/main.py: the other routes *)

Record Token : Type := mkToken {
  access_token : string;
  token_type : string
}.

Record UserCreate : Type := mkUserCreate {
  uc_email : string;
  uc_password : string
}.

Record OAuth2PasswordRequestForm : Type := mkOAuth2PasswordRequestForm {
  username : string;
  password : string
}.

Record ProductInput : Type := mkProductInput {
  pin_name : string;
  pin_price_in_pence : Z
}.

Record ProductOutput : Type := mkProductOutput {
  pout_id : Z;
  pout_name : string;
  pout_price_in_pence : Z
}.

Record TransactionInput (Decimal : Type) : Type := mkTransactionInput {
  tin_user_id : string;
  tin_amount : Decimal;
  tin_description : string
}.
Arguments mkTransactionInput {Decimal} _ _ _.
Arguments tin_user_id {Decimal} _.
Arguments tin_amount {Decimal} _.
Arguments tin_description {Decimal} _.

Record TransactionOutput (Decimal : Type) : Type := mkTransactionOutput {
  tout_id : Z;
  tout_user_id : string;
  tout_amount : Decimal;
  tout_description : string
}.
Arguments mkTransactionOutput {Decimal} _ _ _ _.
Arguments tout_id {Decimal} _.
Arguments tout_user_id {Decimal} _.
Arguments tout_amount {Decimal} _.
Arguments tout_description {Decimal} _.

(** The response model of [/users/me] and of [/register]: the row without
    its [hashed_password]. *)
Definition as_UserOutput (u : users.row) : UserOutput :=
  mkUserOutput (users.id u) (users.email u).

Section Routes.

Variable stripe : Stripe.
Variable pwd_context : CryptContext.
Variable jwt : Jose.
Variable JWT_SECRET_KEY : string.
Variable JWT_ALGORITHM : string.
Variable int : string -> option Z.

(** What a [String(n)] column keeps of a [str], [None] when the store
    refuses the value. *)
Variable varchar : nat -> string -> option string.

(** Python's [Decimal]; what the store keeps of one in a [DECIMAL(19, 2)]
    column (a number of hundredths), [None] when it refuses the value;
    and the [Decimal] read back. *)
Variable Decimal : Type.
Variable to_numeric : Decimal -> option Z.
Variable of_numeric : Z -> Decimal.

Definition register_user (user_in : UserCreate) : H UserOutput :=
  match hash_password pwd_context (uc_password user_in) with
  | None => crashed "pwd_context.hash"
  | Some hashed_pass =>
    last_record_id <-
      try_except (execute_insert_user (uc_email user_in) hashed_pass)
        (fun e => raised (HTTPException 400 "Email already registered.")) ;;
    value (mkUserOutput last_record_id (uc_email user_in))
  end.

Definition login_for_access_token
    (now : Z) (form_data : OAuth2PasswordRequestForm) : H Token :=
  db_user <- lift (fetch_one_user_by_email (username form_data)) ;;
  match db_user with
  | None => raised (HTTPException 401 "Incorrect email or password")
  | Some db_user =>
    match verify_password pwd_context (password form_data)
            (users.hashed_password db_user) with
    | None => crashed "pwd_context.verify"
    | Some false => raised (HTTPException 401 "Incorrect email or password")
    | Some true =>
      let token_data := [("sub", Str (str (users.id db_user)))] in
      match create_access_token jwt JWT_SECRET_KEY JWT_ALGORITHM now
              token_data with
      | None => crashed "jwt.encode"
      | Some access_token => value (mkToken access_token "bearer")
      end
    end
  end.

(** [Depends(get_current_user)] in front of [get_my_profile]. *)
Definition get_my_profile (token : string) : H UserOutput :=
  current_user <-
    get_current_user jwt JWT_SECRET_KEY JWT_ALGORITHM int token ;;
  value (as_UserOutput current_user).

Definition create_product (product_in : ProductInput) : M ProductOutput :=
  bind
    (execute_insert_product varchar (pin_name product_in)
       (pin_price_in_pence product_in))
    (fun last_record_id =>
       ret (mkProductOutput last_record_id (pin_name product_in)
              (pin_price_in_pence product_in))).

(** [Depends(get_current_user)] in front of [initiate_payment]. *)
Definition authenticated_initiate_payment
    (token : string) (intent_request : PaymentIntentRequest)
  : H PaymentIntentResponse :=
  current_user <-
    get_current_user jwt JWT_SECRET_KEY JWT_ALGORITHM int token ;;
  lift (initiate_payment stripe intent_request (as_UserOutput current_user)).

Definition create_transaction (txn_in : TransactionInput Decimal)
  : M (TransactionOutput Decimal) :=
  bind
    (execute_insert_transaction varchar (tin_user_id txn_in)
       (to_numeric (tin_amount txn_in)) (tin_description txn_in))
    (fun last_record_id =>
       ret (mkTransactionOutput last_record_id (tin_user_id txn_in)
              (tin_amount txn_in) (tin_description txn_in))).

(** A [TransactionOutput] built from the columns of a row. *)
Definition TransactionOutput_of_row (row : transactions.row)
  : TransactionOutput Decimal :=
  mkTransactionOutput (transactions.id row) (transactions.user_id row)
    (of_numeric (transactions.amount row)) (transactions.description row).

Definition get_transactions_for_user (user_id : string)
  : M (list (TransactionOutput Decimal)) :=
  bind (fetch_all_transactions user_id)
    (fun results => ret (map TransactionOutput_of_row results)).

End Routes.

Local Close Scope route_scope.

(* ================================================================== *)
(** ** The stores the application can reach *)

(** One request served, whatever it was and however the libraries
    answered: the store before and the store after. *)
Inductive step : Database -> Database -> Prop :=
| step_register_user pwd_context user_in db :
    step db (snd (register_user pwd_context user_in db))
| step_login_for_access_token pwd_context jwt key algorithm now form_data db :
    step db
      (snd (login_for_access_token pwd_context jwt key algorithm now
              form_data db))
| step_get_my_profile jwt key algorithm int token db :
    step db (snd (get_my_profile jwt key algorithm int token db))
| step_create_product varchar product_in db :
    step db (snd (create_product varchar product_in db))
| step_initiate_payment stripe jwt key algorithm int token intent_request db :
    step db
      (snd (authenticated_initiate_payment stripe jwt key algorithm int token
              intent_request db))
| step_create_transaction
    varchar (Decimal : Type) (to_numeric : Decimal -> option Z)
    (txn_in : TransactionInput Decimal) db :
    step db (snd (create_transaction varchar Decimal to_numeric txn_in db))
| step_get_transactions_for_user
    (Decimal : Type) (of_numeric : Z -> Decimal) user_id db :
    step db (snd (get_transactions_for_user Decimal of_numeric user_id db))
| step_stripe_webhook stripe secret request db :
    step db (snd (stripe_webhook stripe secret request db)).

(** The stores reached from the empty tables [metadata.create_all]
    makes. *)
Inductive reachable : Database -> Prop :=
| reachable_empty : reachable (mkDatabase [] [] [] [])
| reachable_step db db' : reachable db -> step db db' -> reachable db'.

Definition known_status (s : string) : Prop :=
  s = "pending" \/ s = "succeeded" \/ s = "failed".

(** What the schema declares (keys, the two UNIQUE columns) and what it
    does not declare but the routes keep: a payment has one of the three
    statuses, names a product of the catalog and carries its price, and
    names a registered user. *)
Record consistent (db : Database) : Prop := mkConsistent {
  user_keys : NoDup (map users.id (users_rows db));
  user_emails : NoDup (map users.email (users_rows db));
  product_keys : unique_product_ids db;
  transaction_keys : NoDup (map transactions.id (transactions_rows db));
  payment_keys : NoDup (map payments.id (payments_rows db));
  payment_intents : unique_intent_ids db;
  payment_statuses :
    forall r, In r (payments_rows db) -> known_status (payments.status r);
  payment_products :
    forall r, In r (payments_rows db) ->
      exists p, In p (products_rows db) /\
                products.id p = payments.product_id r /\
                products.price_in_pence p = payments.amount_in_pence r;
  payment_users :
    forall r, In r (payments_rows db) ->
      exists u, In u (users_rows db) /\
                payments.user_id r = str (users.id u)
}.

(* ================================================================== *)
(** ** More fixtures *)

Definition failed_pi_2 : Event :=
  mkEvent "payment_intent.payment_failed" "pi_2".

Definition db_two_pending : Database :=
  with_payments db_catalog
    [payment_pi_1 "pending"; payments.mk 2 1 "1" "pi_2" "pending" 1999].

(** A password context that tags instead of hashing. *)
Definition tagging_context : CryptContext :=
  mkCryptContext (fun plain => Some ("$2b$" ++ plain))
    (fun plain hashed => Some (hashed =? "$2b$" ++ plain)).

(** A token library that knows one token, the one of user 1. *)
Definition one_token : Jose :=
  mkJose (fun _ _ _ => Some "header.payload.signature")
    (fun token _ _ =>
       if token =? "header.payload.signature"
       then Some [("sub", Str "1"); ("exp", Num 1700001800)]
       else None).

Definition db_registered : Database :=
  with_users db_catalog
    (users_rows db_catalog ++
     [users.mk 2 "test@example.com" "$2b$securepassword123"]).

(** A token library whose one token names user 2147483648. *)
Definition big_sub_token : Jose :=
  mkJose (fun _ _ _ => Some "header.payload.signature")
    (fun _ _ _ => Some [("sub", Str "2147483648"); ("exp", Num 1700001800)]).

(** A store that keeps a string of up to n bytes as it is and refuses a
    longer one. *)
Definition up_to (n : nat) (s : string) : option string :=
  if (String.length s <=? n)%nat then Some s else None.

(** Decimal literals read as integers. *)
Definition int_of_decimal (s : string) : option Z :=
  option_map Z.of_int (NilZero.int_of_string s).

(** What a signature-valid event does to the store. *)
Definition apply_event (event : Event) (db : Database) : Database :=
  match target_status (ev_type event) with
  | Some s =>
      with_payments db
        (map (update_row (ev_data_object_id event) s) (payments_rows db))
  | None => db
  end.

(* ================================================================== *)
(** ** The store operations *)

Lemma with_payments_same (db : Database) :
  with_payments db (payments_rows db) = db.
Proof. destruct db; reflexivity. Qed.

Lemma set_status_same (r : payments.row) :
  payments.set_status (payments.status r) r = r.
Proof. destruct r; reflexivity. Qed.

Lemma update_row_same_but_status (x s : string) (r : payments.row) :
  same_but_status r (update_row x s r).
Proof.
  unfold update_row, same_but_status.
  destruct (payments.stripe_payment_intent_id r =? x);
    destruct r; simpl; repeat split.
Qed.

Lemma update_row_intent_id (x s : string) (r : payments.row) :
  payments.stripe_payment_intent_id (update_row x s r)
  = payments.stripe_payment_intent_id r.
Proof. apply (update_row_same_but_status x s r). Qed.

Lemma update_row_hit (x s : string) (r : payments.row) :
  payments.stripe_payment_intent_id r = x ->
  update_row x s r = payments.set_status s r.
Proof.
  intros E. unfold update_row.
  rewrite (proj2 (String.eqb_eq _ _) E). reflexivity.
Qed.

Lemma update_row_miss (x s : string) (r : payments.row) :
  payments.stripe_payment_intent_id r <> x ->
  update_row x s r = r.
Proof.
  intros E. unfold update_row.
  rewrite (proj2 (String.eqb_neq _ _) E). reflexivity.
Qed.

(** An update that writes the status a row already has does not change it. *)
Lemma update_row_settled (x s : string) (r : payments.row) :
  payments.status r = s -> update_row x s r = r.
Proof.
  intros E. unfold update_row.
  destruct (payments.stripe_payment_intent_id r =? x); [|reflexivity].
  subst s. apply set_status_same.
Qed.

Lemma update_row_idem (x s : string) (r : payments.row) :
  update_row x s (update_row x s r) = update_row x s r.
Proof.
  destruct (payments.stripe_payment_intent_id r =? x) eqn:E.
  - apply update_row_settled. unfold update_row. rewrite E.
    destruct r; reflexivity.
  - unfold update_row. rewrite E, E. reflexivity.
Qed.

(** No row matches the WHERE clause: the table is as it was. *)
Lemma update_unknown (x s : string) (ps : list payments.row) :
  (forall r, In r ps -> payments.stripe_payment_intent_id r <> x) ->
  map (update_row x s) ps = ps.
Proof.
  induction ps as [|r ps IH]; intros H; simpl; [reflexivity|].
  rewrite update_row_miss by (apply H; left; reflexivity).
  rewrite IH; [reflexivity|]. intros r' Hr'. apply H. right. exact Hr'.
Qed.

(** Every matching row already has the status written. *)
Lemma update_settled (x s : string) (ps : list payments.row) :
  (forall r, In r ps -> payments.stripe_payment_intent_id r = x ->
             payments.status r = s) ->
  map (update_row x s) ps = ps.
Proof.
  induction ps as [|r ps IH]; intros H; simpl; [reflexivity|].
  rewrite IH by (intros r' Hr'; apply H; right; exact Hr').
  f_equal. unfold update_row.
  destruct (payments.stripe_payment_intent_id r =? x) eqn:E; [|reflexivity].
  apply String.eqb_eq in E.
  rewrite <- (H r (or_introl eq_refl) E). apply set_status_same.
Qed.

Lemma update_idem (x s : string) (ps : list payments.row) :
  map (update_row x s) (map (update_row x s) ps) = map (update_row x s) ps.
Proof.
  rewrite map_map. apply map_ext. intros r. apply update_row_idem.
Qed.

Lemma update_same_but_status (x s : string) (ps : list payments.row) :
  Forall2 same_but_status ps (map (update_row x s) ps).
Proof.
  induction ps as [|r ps IH]; simpl; constructor.
  - apply update_row_same_but_status.
  - exact IH.
Qed.

Lemma same_but_status_refl (ps : list payments.row) :
  Forall2 same_but_status ps ps.
Proof.
  induction ps as [|r ps IH]; constructor; [|exact IH].
  repeat split.
Qed.

(** Under the UNIQUE constraint the rows with one external id are one row. *)
Lemma unique_intent_row (ps : list payments.row) (r r' : payments.row) :
  NoDup (map payments.stripe_payment_intent_id ps) ->
  In r ps -> In r' ps ->
  payments.stripe_payment_intent_id r' = payments.stripe_payment_intent_id r ->
  r' = r.
Proof.
  induction ps as [|p ps IH]; simpl; intros ND Hr Hr' E; [contradiction|].
  inversion ND as [|? ? Hnotin ND']; subst.
  destruct Hr as [->|Hr], Hr' as [->|Hr'].
  - reflexivity.
  - exfalso. apply Hnotin. rewrite <- E. apply in_map. exact Hr'.
  - exfalso. apply Hnotin. rewrite E. apply in_map. exact Hr.
  - apply IH; assumption.
Qed.

(** The update keeps the UNIQUE constraint. *)
Lemma update_keeps_unique (x s : string) (db : Database) :
  unique_intent_ids db ->
  unique_intent_ids (with_payments db (map (update_row x s) (payments_rows db))).
Proof.
  unfold unique_intent_ids. simpl. rewrite map_map.
  rewrite (map_ext _ payments.stripe_payment_intent_id
             (update_row_intent_id x s)).
  trivial.
Qed.

(* ================================================================== *)
(** ** [stripe_webhook]: the paths through the handler *)

Section Webhook.

Variable stripe : Stripe.
Variable secret : string.
Variable request : Request.
Variable db : Database.

(** A request that passes verification is answered [success]; the store is
    the one the dispatch on the event type leaves. *)
Lemma webhook_accepted (event : Event) :
  signature_valid stripe secret request event ->
  stripe_webhook stripe secret request db
  = (Return success,
     match target_status (ev_type event) with
     | Some s =>
         with_payments db
           (map (update_row (ev_data_object_id event) s) (payments_rows db))
     | None => db
     end).
Proof.
  intros (sig_header & Hget & Hsig & Hsecret & Hok).
  unfold stripe_webhook, target_status.
  rewrite Hget. unfold truthy.
  rewrite (proj2 (String.eqb_neq _ _) Hsig). simpl negb.
  rewrite (proj2 (String.eqb_neq _ _) Hsecret). cbv iota.
  rewrite Hok.
  destruct (ev_type event =? "payment_intent.succeeded");
    [reflexivity|].
  destruct (ev_type event =? "payment_intent.payment_failed");
    reflexivity.
Qed.

(** Whatever the request, the store afterwards is the store before, or the
    store before with one status update applied to [payments]. *)
Lemma webhook_store_shape :
  snd (stripe_webhook stripe secret request db) = db \/
  exists x s,
    snd (stripe_webhook stripe secret request db)
    = with_payments db (map (update_row x s) (payments_rows db)).
Proof.
  unfold stripe_webhook.
  destruct (negb (truthy (headers_get request "stripe-signature")));
    [left; reflexivity|].
  destruct (secret =? ""); [left; reflexivity|].
  destruct (Webhook_construct_event stripe _ _ _) as [event|e|e];
    try (left; reflexivity).
  destruct (ev_type event =? "payment_intent.succeeded").
  { right. exists (ev_data_object_id event), "succeeded". reflexivity. }
  destruct (ev_type event =? "payment_intent.payment_failed").
  { right. exists (ev_data_object_id event), "failed". reflexivity. }
  left. reflexivity.
Qed.

End Webhook.

(** The handler keeps the UNIQUE constraint of [payments]. *)
Lemma webhook_keeps_unique stripe secret request db :
  unique_intent_ids db ->
  unique_intent_ids (snd (stripe_webhook stripe secret request db)).
Proof.
  intros U.
  destruct (webhook_store_shape stripe secret request db) as [E|(x & s & E)];
    rewrite E; [exact U|].
  apply update_keeps_unique. exact U.
Qed.

(** C10.  A request without the [stripe-signature] header is answered 400
    "Missing Stripe-Signature header" with the store untouched, whatever the
    signing secret is (the unconfigured, empty secret included), whatever
    the body and whatever the SDK would have said: the header test comes
    before the test of the secret. *)
Theorem missing_header_first
    (stripe : Stripe) (secret : string) (request : Request) (db : Database) :
  headers_get request "stripe-signature" = None ->
  stripe_webhook stripe secret request db
  = (Raise (HTTPException 400 "Missing Stripe-Signature header"), db)
  /\ stripe_webhook stripe "" request db
     = (Raise (HTTPException 400 "Missing Stripe-Signature header"), db).
Proof.
  intros Hget. unfold stripe_webhook. rewrite Hget. simpl.
  split; reflexivity.
Qed.

Lemma missing_header_first_witness :
  headers_get (unsigned "{}") "stripe-signature" = None /\
  stripe_webhook (delivering succeeded_pi_1) "" (unsigned "{}")
    (db_with "pending")
  = (Raise (HTTPException 400 "Missing Stripe-Signature header"),
     db_with "pending").
Proof.
  split; [reflexivity|].
  apply (missing_header_first (delivering succeeded_pi_1) ""
           (unsigned "{}") (db_with "pending")).
  reflexivity.
Defined.

(** C4.  Every failure of verification rejects the request with the store
    as it was.  In the order the handler tests them: no signature header
    (absent or empty) is a 400; a signature header with the signing secret
    unconfigured is a 500; a payload [construct_event] cannot parse is a
    400; a signature it refuses is a 400.  With the secret unconfigured no
    request is processed, whatever it carries. *)
Theorem verification_failure_rejects
    (stripe : Stripe) (secret : string) (request : Request) (db : Database) :
  let sig_header := headers_get request "stripe-signature" in
  let answer := stripe_webhook stripe secret request db in
  (truthy sig_header = false ->
     answer = (Raise (HTTPException 400 "Missing Stripe-Signature header"), db))
  /\
  (truthy sig_header = true -> secret = "" ->
     answer = (Raise (HTTPException 500 "Webhook secret not configured"), db))
  /\
  (forall s, sig_header = Some s -> truthy sig_header = true -> secret <> "" ->
     (forall e,
        Webhook_construct_event stripe (body request) s secret = ValueError e ->
        answer = (Raise (HTTPException 400 ("Invalid payload: " ++ e)), db))
     /\
     (forall e,
        Webhook_construct_event stripe (body request) s secret
          = SignatureVerificationError e ->
        answer = (Raise (HTTPException 400 ("Invalid signature: " ++ e)), db)))
  /\
  (secret = "" ->
     exists e, answer = (Raise e, db) /\
               (http_status e = 400 \/ http_status e = 500)).
Proof.
  cbv zeta. unfold stripe_webhook.
  split; [|split; [|split]].
  - intros Hsig. rewrite Hsig. reflexivity.
  - intros Hsig ->. rewrite Hsig. reflexivity.
  - intros s Hget Hsig Hsecret. rewrite Hsig. simpl negb. cbv iota.
    rewrite (proj2 (String.eqb_neq _ _) Hsecret), Hget.
    split; intros e He; rewrite He; reflexivity.
  - intros ->.
    destruct (truthy (headers_get request "stripe-signature")); simpl.
    + eexists. split; [reflexivity|]. right. reflexivity.
    + eexists. split; [reflexivity|]. left. reflexivity.
Qed.

(** The four rejections of C4 on concrete requests. *)
Example rejected_without_signature :
  stripe_webhook (delivering succeeded_pi_1) whsec
    (mkRequest "{}" [("stripe-signature", "")]) (db_with "pending")
  = (Raise (HTTPException 400 "Missing Stripe-Signature header"),
     db_with "pending").
Proof. reflexivity. Qed.

Example rejected_without_secret :
  stripe_webhook (delivering succeeded_pi_1) "" (signed "{}")
    (db_with "pending")
  = (Raise (HTTPException 500 "Webhook secret not configured"),
     db_with "pending").
Proof. reflexivity. Qed.

Example rejected_malformed_payload :
  stripe_webhook
    (patched (OtherException "not patched") (ValueError "Expecting value"))
    whsec (signed "not json") (db_with "pending")
  = (Raise (HTTPException 400 "Invalid payload: Expecting value"),
     db_with "pending").
Proof. reflexivity. Qed.

Example rejected_invalid_signature :
  stripe_webhook
    (patched (OtherException "not patched")
       (SignatureVerificationError "No signatures found"))
    whsec (signed "{}") (db_with "pending")
  = (Raise (HTTPException 400 "Invalid signature: No signatures found"),
     db_with "pending").
Proof. reflexivity. Qed.

(** C6.  A signature-valid succeeded or failed event whose external id no
    payment row carries is acknowledged with [success], and the store is
    the store before. *)
Theorem unknown_intent_acknowledged
    (stripe : Stripe) (secret : string) (request : Request) (db : Database)
    (event : Event) :
  signature_valid stripe secret request event ->
  ev_type event = "payment_intent.succeeded" \/
  ev_type event = "payment_intent.payment_failed" ->
  (forall r, In r (payments_rows db) ->
             payments.stripe_payment_intent_id r <> ev_data_object_id event) ->
  stripe_webhook stripe secret request db = (Return success, db).
Proof.
  intros Hvalid _ Hunknown.
  rewrite (webhook_accepted stripe secret request db event Hvalid).
  destruct (target_status (ev_type event)) as [s|]; [|reflexivity].
  rewrite (update_unknown _ s _ Hunknown).
  rewrite with_payments_same. reflexivity.
Qed.

Lemma signed_is_valid (c : create_outcome) (event : Event) (payload : string) :
  signature_valid (patched c (Constructed event)) whsec (signed payload) event.
Proof.
  exists "t=1700000000,v1=5257a869".
  repeat split; discriminate.
Qed.

Lemma unknown_intent_acknowledged_witness :
  stripe_webhook
    (delivering (mkEvent "payment_intent.payment_failed" "pi_404"))
    whsec (signed "{}") (db_with "pending")
  = (Return success, db_with "pending").
Proof.
  apply (unknown_intent_acknowledged
           (delivering (mkEvent "payment_intent.payment_failed" "pi_404"))
           whsec (signed "{}") (db_with "pending")
           (mkEvent "payment_intent.payment_failed" "pi_404")).
  - apply signed_is_valid.
  - right. reflexivity.
  - intros r [<-|[]]. discriminate.
Defined.

(** C8.  A signature-valid event of any type other than
    [payment_intent.succeeded] and [payment_intent.payment_failed] is
    acknowledged with [success], and the store is the store before. *)
Theorem unhandled_event_acknowledged
    (stripe : Stripe) (secret : string) (request : Request) (db : Database)
    (event : Event) :
  signature_valid stripe secret request event ->
  ev_type event <> "payment_intent.succeeded" ->
  ev_type event <> "payment_intent.payment_failed" ->
  stripe_webhook stripe secret request db = (Return success, db).
Proof.
  intros Hvalid Hs Hf.
  rewrite (webhook_accepted stripe secret request db event Hvalid).
  unfold target_status.
  rewrite (proj2 (String.eqb_neq _ _) Hs), (proj2 (String.eqb_neq _ _) Hf).
  reflexivity.
Qed.

Lemma unhandled_event_acknowledged_witness :
  stripe_webhook (delivering (mkEvent "charge.refunded" "pi_1"))
    whsec (signed "{}") (db_with "pending")
  = (Return success, db_with "pending").
Proof.
  apply (unhandled_event_acknowledged
           (delivering (mkEvent "charge.refunded" "pi_1"))
           whsec (signed "{}") (db_with "pending")
           (mkEvent "charge.refunded" "pi_1")).
  - apply signed_is_valid.
  - discriminate.
  - discriminate.
Defined.

(** The store a request leaves is the store before, or the store before
    with the status of a signature-valid succeeded or failed event written
    into the rows that carry the event's external id. *)
Lemma webhook_store_event
    (stripe : Stripe) (secret : string) (request : Request) (db : Database) :
  snd (stripe_webhook stripe secret request db) = db \/
  exists event s,
    signature_valid stripe secret request event /\
    target_status (ev_type event) = Some s /\
    snd (stripe_webhook stripe secret request db)
    = with_payments db
        (map (update_row (ev_data_object_id event) s) (payments_rows db)).
Proof.
  unfold stripe_webhook.
  destruct (headers_get request "stripe-signature") as [sig_header|] eqn:Hget;
    [|left; reflexivity].
  unfold truthy.
  destruct (sig_header =? "") eqn:Hsig; [left; reflexivity|].
  simpl negb. cbv iota.
  destruct (secret =? "") eqn:Hsecret; [left; reflexivity|].
  destruct (Webhook_construct_event stripe _ _ _) as [event|e|e] eqn:Hevent;
    try (left; reflexivity).
  assert (signature_valid stripe secret request event) as Hvalid.
  { exists sig_header. apply String.eqb_neq in Hsig, Hsecret.
    repeat split; assumption. }
  destruct (ev_type event =? "payment_intent.succeeded") eqn:Es.
  { right. exists event, "succeeded".
    split; [exact Hvalid|]. unfold target_status. rewrite Es.
    split; reflexivity. }
  destruct (ev_type event =? "payment_intent.payment_failed") eqn:Ef.
  { right. exists event, "failed".
    split; [exact Hvalid|]. unfold target_status. rewrite Es, Ef.
    split; reflexivity. }
  left. reflexivity.
Qed.

Lemma update_settles
    (stripe : Stripe) (secret : string) (request : Request)
    (event : Event) (s : string) (ps : list payments.row) :
  signature_valid stripe secret request event ->
  target_status (ev_type event) = Some s ->
  Forall2 (fun r r' => r' = r \/ settled_by stripe secret request r r')
    ps (map (update_row (ev_data_object_id event) s) ps).
Proof.
  intros Hvalid Hs. induction ps as [|r ps IH]; simpl.
  - constructor.
  - constructor; [|exact IH].
    unfold update_row.
    destruct (payments.stripe_payment_intent_id r =? ev_data_object_id event)
      eqn:Er; [|left; reflexivity].
    right. exists event, s. apply String.eqb_eq in Er.
    split; [exact Hvalid|]. split; [exact Hs|]. split; [exact Er|reflexivity].
Qed.

Lemma untouched_rows
    (stripe : Stripe) (secret : string) (request : Request)
    (ps : list payments.row) :
  Forall2 (fun r r' => r' = r \/ settled_by stripe secret request r r') ps ps.
Proof.
  induction ps as [|r ps IH]; constructor; [left; reflexivity|exact IH].
Qed.

(** C9.  Handling a webhook request, any request, leaves [users],
    [transactions] and [products] as they were and takes [payments] to a
    table with the same rows in the same order, each with its [id],
    [product_id], [user_id], [stripe_payment_intent_id] and
    [amount_in_pence] as before: no row is added or removed.  Row by row,
    the row after is the row before, status included, unless the request
    is signature-valid for a succeeded or failed event that carries the
    row's external id; then it is the row before with the event's
    status. *)
Theorem webhook_touches_status_only
    (stripe : Stripe) (secret : string) (request : Request) (db : Database) :
  let db' := snd (stripe_webhook stripe secret request db) in
  Forall2 same_but_status (payments_rows db) (payments_rows db') /\
  List.length (payments_rows db') = List.length (payments_rows db) /\
  users_rows db' = users_rows db /\
  transactions_rows db' = transactions_rows db /\
  products_rows db' = products_rows db /\
  Forall2 (fun r r' => r' = r \/ settled_by stripe secret request r r')
    (payments_rows db) (payments_rows db').
Proof.
  cbv zeta.
  destruct (webhook_store_event stripe secret request db)
    as [E|(event & s & Hvalid & Hs & E)]; rewrite E.
  - repeat split; [apply same_but_status_refl|apply untouched_rows].
  - simpl. rewrite length_map.
    repeat split; [apply update_same_but_status|].
    apply update_settles; assumption.
Qed.

(* ================================================================== *)
(** ** The status a webhook leaves *)

Lemma map_fixed_pointwise {A} (f : A -> A) (l : list A) :
  map f l = l -> forall a, In a l -> f a = a.
Proof.
  induction l as [|b l IH]; simpl; intros E a Ha; [contradiction|].
  injection E as Eb El. destruct Ha as [<-|Ha]; [exact Eb|].
  apply IH; assumption.
Qed.

(** After the update every row with the external id has the status written. *)
Lemma updated_rows_status (x s : string) (ps : list payments.row) (r' : payments.row) :
  In r' (map (update_row x s) ps) ->
  payments.stripe_payment_intent_id r' = x ->
  payments.status r' = s.
Proof.
  intros Hin E. apply in_map_iff in Hin. destruct Hin as (r & <- & _).
  rewrite update_row_intent_id in E.
  rewrite (update_row_hit x s r E). reflexivity.
Qed.

(** C1, as the code has it.  A signature-valid succeeded or failed event is
    acknowledged and WRITES its status, [s], into the row with its external
    id, whatever status that row has: pending, succeeded or failed.  The
    store is the store before exactly when the row already had status [s]
    (one direction rests on the UNIQUE constraint); [s] is [succeeded] or
    [failed], by the type of the event. *)
Theorem webhook_overwrites_status
    (stripe : Stripe) (secret : string) (request : Request) (db : Database)
    (event : Event) (s : string) (r : payments.row) :
  signature_valid stripe secret request event ->
  target_status (ev_type event) = Some s ->
  In r (payments_rows db) ->
  payments.stripe_payment_intent_id r = ev_data_object_id event ->
  let answer := stripe_webhook stripe secret request db in
  (s = "succeeded" \/ s = "failed") /\
  fst answer = Return success /\
  In (payments.set_status s r) (payments_rows (snd answer)) /\
  (unique_intent_ids db -> payments.status r = s -> snd answer = db) /\
  (payments.status r <> s -> snd answer <> db).
Proof.
  intros Hvalid Hs Hin Hid. cbv zeta.
  rewrite (webhook_accepted stripe secret request db event Hvalid), Hs.
  simpl fst. simpl snd.
  split; [|split; [reflexivity|split; [|split]]].
  - unfold target_status in Hs.
    destruct (ev_type event =? "payment_intent.succeeded");
      [left; congruence|].
    destruct (ev_type event =? "payment_intent.payment_failed");
      [right; congruence|discriminate].
  - simpl. rewrite <- (update_row_hit _ s r Hid).
    apply in_map. exact Hin.
  - intros U Hstatus.
    rewrite update_settled; [apply with_payments_same|].
    intros r' Hr' Er'.
    rewrite (unique_intent_row (payments_rows db) r r' U Hin Hr');
      [exact Hstatus|congruence].
  - intros Hstatus E. apply Hstatus.
    apply (f_equal payments_rows) in E. simpl in E.
    pose proof (map_fixed_pointwise _ _ E r Hin) as Er.
    rewrite (update_row_hit _ s r Hid) in Er.
    rewrite <- Er. reflexivity.
Qed.

Lemma webhook_overwrites_status_witness :
  let answer :=
    stripe_webhook (delivering failed_pi_1) whsec (signed "{}")
      (db_with "succeeded") in
  ("failed" = "succeeded" \/ "failed" = "failed") /\
  fst answer = Return success /\
  In (payments.set_status "failed" (payment_pi_1 "succeeded"))
     (payments_rows (snd answer)) /\
  (unique_intent_ids (db_with "succeeded") ->
   payments.status (payment_pi_1 "succeeded") = "failed" ->
   snd answer = db_with "succeeded") /\
  (payments.status (payment_pi_1 "succeeded") <> "failed" ->
   snd answer <> db_with "succeeded").
Proof.
  apply (webhook_overwrites_status (delivering failed_pi_1) whsec
           (signed "{}") (db_with "succeeded") failed_pi_1 "failed"
           (payment_pi_1 "succeeded")).
  - apply signed_is_valid.
  - reflexivity.
  - left. reflexivity.
  - reflexivity.
Defined.

(** C1 as the specification words it fails: a failed event delivered after
    a succeeded event for [pi_1] is acknowledged, mutates the store, and
    leaves the record [failed]. *)
Lemma failed_after_succeeded_overwrites :
  let db1 :=
    snd (stripe_webhook (delivering succeeded_pi_1) whsec (signed "{}")
           (db_with "pending")) in
  let answer :=
    stripe_webhook (delivering failed_pi_1) whsec (signed "{}") db1 in
  payments_rows db1 = [payment_pi_1 "succeeded"] /\
  fst answer = Return success /\
  payments_rows (snd answer) = [payment_pi_1 "failed"] /\
  snd answer <> db1.
Proof.
  cbv zeta. repeat split. discriminate.
Qed.

(** C5.  A pending record, and the same signature-valid succeeded event
    delivered twice ([stripe1] and [stripe2] are the SDK at the first and
    at the second delivery): both deliveries are acknowledged, the store
    after the second is the store after the first, every row with the
    event's external id is [succeeded] there, the record among them, and
    the table has as many rows as before. *)
Theorem succeeded_twice_as_once
    (stripe1 stripe2 : Stripe) (secret : string) (request : Request)
    (db : Database) (event : Event) (r : payments.row) :
  signature_valid stripe1 secret request event ->
  signature_valid stripe2 secret request event ->
  ev_type event = "payment_intent.succeeded" ->
  In r (payments_rows db) ->
  payments.stripe_payment_intent_id r = ev_data_object_id event ->
  payments.status r = "pending" ->
  let once := stripe_webhook stripe1 secret request db in
  let twice := stripe_webhook stripe2 secret request (snd once) in
  fst once = Return success /\
  fst twice = Return success /\
  snd twice = snd once /\
  In (payments.set_status "succeeded" r) (payments_rows (snd twice)) /\
  (forall r', In r' (payments_rows (snd twice)) ->
     payments.stripe_payment_intent_id r' = ev_data_object_id event ->
     payments.status r' = "succeeded") /\
  List.length (payments_rows (snd twice)) = List.length (payments_rows db).
Proof.
  intros Hvalid1 Hvalid2 Htype Hin Hid _. cbv zeta.
  rewrite (webhook_accepted stripe1 secret request db event Hvalid1).
  rewrite (webhook_accepted stripe2 secret request _ event Hvalid2).
  unfold target_status. rewrite Htype. simpl.
  rewrite update_idem.
  split; [reflexivity|]. split; [reflexivity|]. split; [reflexivity|].
  split; [|split].
  - rewrite <- (update_row_hit _ "succeeded" r Hid).
    apply in_map. exact Hin.
  - intros r' Hr' Er'.
    apply (updated_rows_status _ _ _ r' Hr' Er').
  - apply length_map.
Qed.

Lemma succeeded_twice_as_once_witness :
  let once :=
    stripe_webhook (delivering succeeded_pi_1) whsec (signed "{}")
      (db_with "pending") in
  let twice :=
    stripe_webhook (delivering succeeded_pi_1) whsec (signed "{}")
      (snd once) in
  fst once = Return success /\
  fst twice = Return success /\
  snd twice = snd once /\
  In (payments.set_status "succeeded" (payment_pi_1 "pending"))
     (payments_rows (snd twice)) /\
  (forall r', In r' (payments_rows (snd twice)) ->
     payments.stripe_payment_intent_id r' = ev_data_object_id succeeded_pi_1 ->
     payments.status r' = "succeeded") /\
  List.length (payments_rows (snd twice))
  = List.length (payments_rows (db_with "pending")).
Proof.
  apply (succeeded_twice_as_once (delivering succeeded_pi_1)
           (delivering succeeded_pi_1) whsec (signed "{}")
           (db_with "pending") succeeded_pi_1 (payment_pi_1 "pending")).
  - apply signed_is_valid.
  - apply signed_is_valid.
  - reflexivity.
  - left. reflexivity.
  - reflexivity.
  - reflexivity.
Defined.

(* ================================================================== *)
(** ** [initiate_payment] *)

(** [fetch_one] on a primary key finds the row that has it. *)
Lemma find_product_present (ps : list products.row) (product : products.row) :
  NoDup (map products.id ps) ->
  In product ps ->
  find (fun p => products.id p =? products.id product)%Z ps = Some product.
Proof.
  induction ps as [|p ps IH]; simpl; intros ND Hin; [contradiction|].
  inversion ND as [|? ? Hnotin ND']; subst.
  destruct Hin as [->|Hin].
  - rewrite Z.eqb_refl. reflexivity.
  - destruct (products.id p =? products.id product)%Z eqn:E.
    + exfalso. apply Hnotin. apply Z.eqb_eq in E. rewrite E.
      apply in_map. exact Hin.
    + apply IH; assumption.
Qed.

Lemma find_product_absent (ps : list products.row) (pid : Z) :
  (forall p, In p ps -> products.id p <> pid) ->
  find (fun p => products.id p =? pid)%Z ps = None.
Proof.
  induction ps as [|p ps IH]; simpl; intros H; [reflexivity|].
  rewrite (proj2 (Z.eqb_neq _ _) (H p (or_introl eq_refl))).
  apply IH. intros q Hq. apply H. right. exact Hq.
Qed.

Lemma max_bounds (ids : list Z) (i : Z) :
  In i ids -> i <= fold_right Z.max 0 ids.
Proof.
  induction ids as [|j ids IH]; simpl; intros Hin; [contradiction|].
  destruct Hin as [->|Hin]; [lia|].
  specialize (IH Hin). lia.
Qed.

(** The key the store hands out is not in use. *)
Lemma next_id_fresh (ids : list Z) : ~ In (next_id ids) ids.
Proof.
  intros Hin. apply max_bounds in Hin. unfold next_id in Hin. lia.
Qed.

Lemma existsb_intent_false (x : string) (ps : list payments.row) :
  existsb (fun r => payments.stripe_payment_intent_id r =? x) ps = false ->
  forall r, In r ps -> payments.stripe_payment_intent_id r <> x.
Proof.
  intros E r Hin Hx.
  assert (existsb (fun r => payments.stripe_payment_intent_id r =? x) ps = true)
    as E'.
  { apply existsb_exists. exists r. split; [exact Hin|].
    apply String.eqb_eq. exact Hx. }
  congruence.
Qed.

(** The insert keeps the UNIQUE constraint: it is refused otherwise. *)
Lemma insert_keeps_unique pid uid x st amt (db : Database) :
  unique_intent_ids db ->
  unique_intent_ids (snd (execute_insert_payment pid uid x st amt db)).
Proof.
  unfold unique_intent_ids, execute_insert_payment. intros U.
  destruct (existsb _ _) eqn:E; simpl; [exact U|].
  rewrite map_app. simpl.
  assert (~ In x (map payments.stripe_payment_intent_id (payments_rows db)))
    as Hfresh.
  { intros Hin. apply in_map_iff in Hin. destruct Hin as (r & Er & Hr).
    exact (existsb_intent_false x _ E r Hr Er). }
  clear E. induction (payments_rows db) as [|r ps IH]; simpl in *.
  - constructor; [intros []|constructor].
  - inversion U as [|? ? Hn U']; subst. constructor.
    + rewrite in_app_iff. intros [H|[H|[]]]; [exact (Hn H)|].
      apply Hfresh. left. symmetry. exact H.
    + apply IH; [exact U'|]. intros H. apply Hfresh. right. exact H.
Qed.

Section Initiate.

Variable stripe : Stripe.
Variable intent_request : PaymentIntentRequest.
Variable current_user : UserOutput.
Variable db : Database.

(** With the product in the catalog, the answer is decided by the gateway
    and then by the insert. *)
Lemma initiate_payment_found (product : products.row) :
  unique_product_ids db ->
  In product (products_rows db) ->
  products.id product = product_id intent_request ->
  initiate_payment stripe intent_request current_user db
  = match
      PaymentIntent_create stripe (products.price_in_pence product) "gbp"
        (metadata (uo_id current_user) (product_id intent_request))
    with
    | Created payment_intent =>
        bind
          (execute_insert_payment (product_id intent_request)
             (str (uo_id current_user)) (pi_id payment_intent) "pending"
             (products.price_in_pence product))
          (fun _ =>
             ret (mkPaymentIntentResponse (pi_client_secret payment_intent)
                    (pi_id payment_intent)))
          db
    | CardError e => (Raise (HTTPException 400 e), db)
    | StripeError e => (Raise (HTTPException 400 ("Stripe error: " ++ e)), db)
    | OtherException e =>
        (Raise (HTTPException 500 ("An unexpected error occurred: " ++ e)), db)
    end.
Proof.
  intros U Hin Hid. unfold initiate_payment, bind at 1, fetch_one_product.
  rewrite <- Hid, (find_product_present _ product U Hin), Hid.
  destruct (PaymentIntent_create stripe _ _ _); reflexivity.
Qed.

(** The call does succeed when the gateway returns an intent whose id is
    not stored yet. *)
Lemma initiate_payment_returns
    (product : products.row) (payment_intent : PaymentIntent) :
  unique_product_ids db ->
  In product (products_rows db) ->
  products.id product = product_id intent_request ->
  PaymentIntent_create stripe (products.price_in_pence product) "gbp"
    (metadata (uo_id current_user) (product_id intent_request))
  = Created payment_intent ->
  (forall r, In r (payments_rows db) ->
     payments.stripe_payment_intent_id r <> pi_id payment_intent) ->
  exists db',
    initiate_payment stripe intent_request current_user db
    = (Return (mkPaymentIntentResponse (pi_client_secret payment_intent)
                 (pi_id payment_intent)),
       db').
Proof.
  intros U Hin Hid Hcreated Hfresh.
  rewrite (initiate_payment_found product U Hin Hid), Hcreated.
  unfold bind, execute_insert_payment, ret.
  destruct (existsb _ _) eqn:E.
  - apply existsb_exists in E. destruct E as (r & Hr & Er).
    apply String.eqb_eq in Er. destruct (Hfresh r Hr Er).
  - eexists. reflexivity.
Qed.

(** The handler keeps the UNIQUE constraint of [payments]. *)
Lemma initiate_payment_keeps_unique :
  unique_intent_ids db ->
  unique_intent_ids
    (snd (initiate_payment stripe intent_request current_user db)).
Proof.
  intros U. unfold initiate_payment, bind at 1, fetch_one_product.
  destruct (find _ _) as [product|]; [|destruct (int32 _); exact U].
  destruct (PaymentIntent_create stripe _ _ _) as [payment_intent|e|e|e];
    try exact U.
  unfold bind.
  pose proof (insert_keeps_unique (product_id intent_request)
                (str (uo_id current_user)) (pi_id payment_intent) "pending"
                (products.price_in_pence product) db U) as U'.
  destruct (execute_insert_payment _ _ _ _ _ db) as [[new_id|e] db'];
    exact U'.
Qed.

End Initiate.

(** C2.  The product is in the catalog and the call succeeds.  Then the
    gateway returned a payment intent for the product's price, [payments]
    is the table before followed by one row, that row is [pending], has the
    product's price as [amount_in_pence], the gateway's id as
    [stripe_payment_intent_id] (an id no earlier row has), a key no earlier
    row has, the request's product and the caller's id as a string; the
    other tables are as before; and the response carries the gateway's id
    and client secret. *)
Theorem initiate_payment_success
    (stripe : Stripe) (intent_request : PaymentIntentRequest)
    (current_user : UserOutput) (db : Database)
    (product : products.row)
    (response : PaymentIntentResponse) (db' : Database) :
  unique_product_ids db ->
  In product (products_rows db) ->
  products.id product = product_id intent_request ->
  initiate_payment stripe intent_request current_user db
    = (Return response, db') ->
  exists payment_intent new_id,
    PaymentIntent_create stripe (products.price_in_pence product) "gbp"
      (metadata (uo_id current_user) (product_id intent_request))
    = Created payment_intent /\
    payments_rows db'
    = (payments_rows db ++
       [payments.mk new_id (product_id intent_request)
          (str (uo_id current_user)) (pi_id payment_intent) "pending"
          (products.price_in_pence product)])%list /\
    ~ In new_id (map payments.id (payments_rows db)) /\
    (forall r, In r (payments_rows db) ->
       payments.stripe_payment_intent_id r <> pi_id payment_intent) /\
    users_rows db' = users_rows db /\
    transactions_rows db' = transactions_rows db /\
    products_rows db' = products_rows db /\
    response
    = mkPaymentIntentResponse (pi_client_secret payment_intent)
        (pi_id payment_intent).
Proof.
  intros U Hin Hid.
  rewrite (initiate_payment_found stripe intent_request current_user db
             product U Hin Hid).
  destruct (PaymentIntent_create stripe _ _ _) as [payment_intent|e|e|e];
    try discriminate.
  unfold bind, execute_insert_payment, ret.
  destruct (existsb _ _) eqn:E; [discriminate|].
  intros Hanswer. injection Hanswer as <- <-.
  exists payment_intent, (next_id (map payments.id (payments_rows db))).
  simpl. repeat split.
  - apply next_id_fresh.
  - apply existsb_intent_false. exact E.
Qed.

Lemma initiate_payment_success_witness :
  exists payment_intent new_id,
    PaymentIntent_create (patched (Created pi_1) (ValueError "not patched"))
      (products.price_in_pence widget) "gbp"
      (metadata (uo_id payer) (product_id (mkPaymentIntentRequest 1)))
    = Created payment_intent /\
    payments_rows (db_with "pending")
    = (payments_rows db_catalog ++
       [payments.mk new_id (product_id (mkPaymentIntentRequest 1))
          (str (uo_id payer)) (pi_id payment_intent) "pending"
          (products.price_in_pence widget)])%list /\
    ~ In new_id (map payments.id (payments_rows db_catalog)) /\
    (forall r, In r (payments_rows db_catalog) ->
       payments.stripe_payment_intent_id r <> pi_id payment_intent) /\
    users_rows (db_with "pending") = users_rows db_catalog /\
    transactions_rows (db_with "pending") = transactions_rows db_catalog /\
    products_rows (db_with "pending") = products_rows db_catalog /\
    mkPaymentIntentResponse (Some "cs_1") "pi_1"
    = mkPaymentIntentResponse (pi_client_secret payment_intent)
        (pi_id payment_intent).
Proof.
  apply (initiate_payment_success
           (patched (Created pi_1) (ValueError "not patched"))
           (mkPaymentIntentRequest 1) payer db_catalog widget
           (mkPaymentIntentResponse (Some "cs_1") "pi_1")
           (db_with "pending")).
  - repeat constructor. intros [].
  - left. reflexivity.
  - reflexivity.
  - reflexivity.
Defined.

(** C3.  The product is in the catalog and [PaymentIntent.create] raises:
    the handler raises an HTTPException and the store, [payments] with it,
    is the store before. *)
Theorem gateway_failure_persists_nothing
    (stripe : Stripe) (intent_request : PaymentIntentRequest)
    (current_user : UserOutput) (db : Database) (product : products.row) :
  unique_product_ids db ->
  In product (products_rows db) ->
  products.id product = product_id intent_request ->
  gateway_failed
    (PaymentIntent_create stripe (products.price_in_pence product) "gbp"
       (metadata (uo_id current_user) (product_id intent_request))) ->
  exists status_code detail,
    initiate_payment stripe intent_request current_user db
    = (Raise (HTTPException status_code detail), db).
Proof.
  intros U Hin Hid Hfailed.
  rewrite (initiate_payment_found stripe intent_request current_user db
             product U Hin Hid).
  destruct (PaymentIntent_create stripe _ _ _) as [payment_intent|e|e|e];
    [destruct Hfailed| | | ]; eexists; eexists; reflexivity.
Qed.

Lemma gateway_failure_persists_nothing_witness :
  exists status_code detail,
    initiate_payment
      (patched (CardError "Your card was declined.")
         (ValueError "not patched"))
      (mkPaymentIntentRequest 1) payer db_catalog
    = (Raise (HTTPException status_code detail), db_catalog).
Proof.
  apply (gateway_failure_persists_nothing
           (patched (CardError "Your card was declined.")
              (ValueError "not patched"))
           (mkPaymentIntentRequest 1) payer db_catalog widget).
  - repeat constructor. intros [].
  - left. reflexivity.
  - reflexivity.
  - exact I.
Defined.

(** C7, as the code has it.  No product with the requested id, an id the
    key column can hold: 404 "Product not found"; an id outside the
    INTEGER range is refused by the driver before any product is looked
    for, and the handler lets that [DataError] through (a 500).  The
    product is there and the gateway raises a CardError: 400 whose detail
    is the error's text.  Any other StripeError: 400 whose detail is
    "Stripe error: " followed by the error's text.  Any other exception:
    500 whose detail is "An unexpected error occurred: " followed by the
    exception's text.  The store is the store before in all of them. *)
Theorem initiate_payment_failures
    (stripe : Stripe) (intent_request : PaymentIntentRequest)
    (current_user : UserOutput) (db : Database) :
  let answer := initiate_payment stripe intent_request current_user db in
  ((forall p, In p (products_rows db) ->
              products.id p <> product_id intent_request) ->
   int32 (product_id intent_request) = true ->
   answer = (Raise (HTTPException 404 "Product not found"), db))
  /\
  ((forall p, In p (products_rows db) ->
              products.id p <> product_id intent_request) ->
   int32 (product_id intent_request) = false ->
   answer = (Raise out_of_int32, db) /\ http_status out_of_int32 = 500)
  /\
  (forall product,
     unique_product_ids db ->
     In product (products_rows db) ->
     products.id product = product_id intent_request ->
     let outcome :=
       PaymentIntent_create stripe (products.price_in_pence product) "gbp"
         (metadata (uo_id current_user) (product_id intent_request)) in
     (forall e, outcome = CardError e ->
        answer = (Raise (HTTPException 400 e), db)) /\
     (forall e, outcome = StripeError e ->
        answer = (Raise (HTTPException 400 ("Stripe error: " ++ e)), db)) /\
     (forall e, outcome = OtherException e ->
        answer
        = (Raise (HTTPException 500 ("An unexpected error occurred: " ++ e)),
           db))).
Proof.
  cbv zeta. split; [|split].
  - intros Habsent Hfits. unfold initiate_payment, bind, fetch_one_product.
    rewrite (find_product_absent _ _ Habsent), Hfits. reflexivity.
  - intros Habsent Hfits. unfold initiate_payment, bind, fetch_one_product.
    rewrite (find_product_absent _ _ Habsent), Hfits. split; reflexivity.
  - intros product U Hin Hid.
    rewrite (initiate_payment_found stripe intent_request current_user db
               product U Hin Hid).
    repeat split; intros e ->; reflexivity.
Qed.

(** C7 as the specification words it fails: the detail of the 400 answered
    to a StripeError is not one generic message, it repeats the text of the
    error, so two gateway errors are answered with two details; and a
    request for product 2147483648, which no product is, is not answered
    404: the driver's [DataError] goes through, a 500. *)
Lemma gateway_error_detail_repeats_text :
  let answer e :=
    fst (initiate_payment (patched (StripeError e) (ValueError "not patched"))
           (mkPaymentIntentRequest 1) payer db_catalog) in
  answer "No such customer: cus_1"
    = Raise (HTTPException 400 "Stripe error: No such customer: cus_1") /\
  answer "Rate limit exceeded"
    = Raise (HTTPException 400 "Stripe error: Rate limit exceeded") /\
  answer "No such customer: cus_1" <> answer "Rate limit exceeded" /\
  (forall p, In p (products_rows db_catalog) -> products.id p <> 2147483648) /\
  initiate_payment (patched (Created pi_1) (ValueError "not patched"))
    (mkPaymentIntentRequest 2147483648) payer db_catalog
  = (Raise (DataError "value out of int32 range"), db_catalog) /\
  http_status (DataError "value out of int32 range") = 500.
Proof.
  cbv zeta. split; [reflexivity|]. split; [reflexivity|].
  split; [discriminate|]. split; [|split; reflexivity].
  intros p [<-|[]]. discriminate.
Qed.

(** The four failures of C7 on concrete requests. *)
Example unknown_product_404 :
  initiate_payment (patched (Created pi_1) (ValueError "not patched"))
    (mkPaymentIntentRequest 7) payer db_catalog
  = (Raise (HTTPException 404 "Product not found"), db_catalog).
Proof. reflexivity. Qed.

Example card_declined_400 :
  initiate_payment
    (patched (CardError "Your card was declined.") (ValueError "not patched"))
    (mkPaymentIntentRequest 1) payer db_catalog
  = (Raise (HTTPException 400 "Your card was declined."), db_catalog).
Proof. reflexivity. Qed.

Example unexpected_error_500 :
  initiate_payment
    (patched (OtherException "Connection reset by peer")
       (ValueError "not patched"))
    (mkPaymentIntentRequest 1) payer db_catalog
  = (Raise
       (HTTPException 500
          "An unexpected error occurred: Connection reset by peer"),
     db_catalog).
Proof. reflexivity. Qed.

(** The scenario of tests/test_main.py: the gateway is asked for 1999 gbp
    with the caller and the product as metadata, and the insert follows. *)
Example initiate_payment_scenario :
  initiate_payment
    (mkStripe
       (fun amount currency md =>
          if ((amount =? 1999)%Z && (currency =? "gbp"))%bool
          then match md with
               | [("user_id", "1"); ("product_id", "1")] => Created pi_1
               | _ => OtherException "unexpected metadata"
               end
          else OtherException "unexpected call")
       (fun _ _ _ => ValueError "not patched"))
    (mkPaymentIntentRequest 1) payer db_catalog
  = (Return (mkPaymentIntentResponse (Some "cs_1") "pi_1"),
     db_with "pending").
Proof. reflexivity. Qed.

(** A second intent with an id already stored is refused by the store. *)
Example duplicate_intent_refused :
  initiate_payment (patched (Created pi_1) (ValueError "not patched"))
    (mkPaymentIntentRequest 1) payer (db_with "succeeded")
  = (Raise (IntegrityError "payments_stripe_payment_intent_id_key"),
     db_with "succeeded").
Proof. reflexivity. Qed.

(* ================================================================== *)
(** ** More on the payment handlers *)

Lemma update_row_commute (x y s t : string) (r : payments.row) :
  x <> y ->
  update_row x s (update_row y t r) = update_row y t (update_row x s r).
Proof.
  intros Hxy. unfold update_row.
  destruct (payments.stripe_payment_intent_id r =? x) eqn:Ex;
    destruct (payments.stripe_payment_intent_id r =? y) eqn:Ey;
    simpl; rewrite ?Ex, ?Ey; try reflexivity.
  apply String.eqb_eq in Ex, Ey. congruence.
Qed.

Lemma update_commute (x y s t : string) (ps : list payments.row) :
  x <> y ->
  map (update_row x s) (map (update_row y t) ps)
  = map (update_row y t) (map (update_row x s) ps).
Proof.
  intros Hxy. rewrite !map_map. apply map_ext. intros r.
  apply update_row_commute. exact Hxy.
Qed.

Lemma apply_event_commute (e1 e2 : Event) (db : Database) :
  ev_data_object_id e1 <> ev_data_object_id e2 ->
  apply_event e2 (apply_event e1 db) = apply_event e1 (apply_event e2 db).
Proof.
  intros Hne. unfold apply_event.
  destruct (target_status (ev_type e1)) as [s1|];
    destruct (target_status (ev_type e2)) as [s2|]; simpl; try reflexivity.
  unfold with_payments. simpl. f_equal.
  apply update_commute. congruence.
Qed.

(** X1.  Handling the same request a second time, with the SDK answering
    as it did the first time, gives the same answer and leaves the store
    of the first handling: for every request, accepted or rejected, and
    every event type. *)
Theorem webhook_idempotent
    (stripe : Stripe) (secret : string) (request : Request) (db : Database) :
  stripe_webhook stripe secret request
    (snd (stripe_webhook stripe secret request db))
  = stripe_webhook stripe secret request db.
Proof.
  unfold stripe_webhook.
  destruct (negb (truthy (headers_get request "stripe-signature")));
    [reflexivity|].
  destruct (secret =? ""); [reflexivity|].
  destruct (Webhook_construct_event stripe _ _ _) as [event|e|e];
    try reflexivity.
  destruct (ev_type event =? "payment_intent.succeeded").
  { unfold bind, execute_update_status, ret, with_payments. simpl.
    rewrite update_idem. reflexivity. }
  destruct (ev_type event =? "payment_intent.payment_failed").
  { unfold bind, execute_update_status, ret, with_payments. simpl.
    rewrite update_idem. reflexivity. }
  reflexivity.
Qed.

(** X2.  Two signature-valid events about different payment intents can be
    handled in either order: the store afterwards is the same. *)
Theorem webhooks_on_different_intents_commute
    (stripe1 stripe2 : Stripe) (secret : string) (request1 request2 : Request)
    (event1 event2 : Event) (db : Database) :
  signature_valid stripe1 secret request1 event1 ->
  signature_valid stripe2 secret request2 event2 ->
  ev_data_object_id event1 <> ev_data_object_id event2 ->
  snd (stripe_webhook stripe2 secret request2
         (snd (stripe_webhook stripe1 secret request1 db)))
  = snd (stripe_webhook stripe1 secret request1
           (snd (stripe_webhook stripe2 secret request2 db))).
Proof.
  intros Hvalid1 Hvalid2 Hne.
  rewrite !(webhook_accepted stripe1 secret request1 _ event1 Hvalid1).
  rewrite !(webhook_accepted stripe2 secret request2 _ event2 Hvalid2).
  simpl. apply (apply_event_commute event1 event2 db Hne).
Qed.

Lemma webhooks_on_different_intents_commute_witness :
  snd (stripe_webhook (delivering failed_pi_2) whsec (signed "{}")
         (snd (stripe_webhook (delivering succeeded_pi_1) whsec (signed "{}")
                 db_two_pending)))
  = snd (stripe_webhook (delivering succeeded_pi_1) whsec (signed "{}")
           (snd (stripe_webhook (delivering failed_pi_2) whsec (signed "{}")
                   db_two_pending))).
Proof.
  apply (webhooks_on_different_intents_commute
           (delivering succeeded_pi_1) (delivering failed_pi_2) whsec
           (signed "{}") (signed "{}") succeeded_pi_1 failed_pi_2
           db_two_pending).
  - apply signed_is_valid.
  - apply signed_is_valid.
  - discriminate.
Defined.

(** X3.  From intent to settlement.  [initiate_payment] returned for a
    product of the catalog, and a signature-valid succeeded or failed event
    for the returned payment intent id is then handled: the webhook is
    acknowledged, and [payments] is the table before the two requests
    followed by one row, with the event's status, the product's price, the
    request's product and the caller's id. *)
Theorem payment_settled_by_webhook
    (stripe stripe' : Stripe) (secret : string) (request : Request)
    (intent_request : PaymentIntentRequest) (current_user : UserOutput)
    (db db1 : Database) (product : products.row)
    (response : PaymentIntentResponse) (event : Event) (s : string) :
  unique_product_ids db ->
  In product (products_rows db) ->
  products.id product = product_id intent_request ->
  initiate_payment stripe intent_request current_user db
    = (Return response, db1) ->
  signature_valid stripe' secret request event ->
  ev_data_object_id event = payment_intent_id response ->
  target_status (ev_type event) = Some s ->
  exists new_id,
    stripe_webhook stripe' secret request db1
    = (Return success,
       with_payments db
         (payments_rows db ++
          [payments.mk new_id (product_id intent_request)
             (str (uo_id current_user)) (payment_intent_id response) s
             (products.price_in_pence product)])%list).
Proof.
  intros U Hin Hid Hinit Hvalid Hevent Hs.
  rewrite (initiate_payment_found stripe intent_request current_user db
             product U Hin Hid) in Hinit.
  destruct (PaymentIntent_create stripe _ _ _) as [payment_intent|e|e|e];
    try discriminate.
  unfold bind, execute_insert_payment, ret in Hinit.
  destruct (existsb _ _) eqn:E; [discriminate|].
  injection Hinit as <- <-. simpl in Hevent.
  exists (next_id (map payments.id (payments_rows db))).
  rewrite (webhook_accepted stripe' secret request _ event Hvalid), Hs.
  simpl. unfold with_payments. simpl. rewrite map_app. simpl.
  rewrite update_unknown
    by (rewrite Hevent; apply existsb_intent_false; exact E).
  rewrite update_row_hit by (simpl; symmetry; exact Hevent).
  reflexivity.
Qed.

Lemma payment_settled_by_webhook_witness :
  exists new_id,
    stripe_webhook (delivering succeeded_pi_1) whsec (signed "{}")
      (db_with "pending")
    = (Return success,
       with_payments db_catalog
         (payments_rows db_catalog ++
          [payments.mk new_id (product_id (mkPaymentIntentRequest 1))
             (str (uo_id payer))
             (payment_intent_id (mkPaymentIntentResponse (Some "cs_1") "pi_1"))
             "succeeded" (products.price_in_pence widget)])%list).
Proof.
  apply (payment_settled_by_webhook
           (patched (Created pi_1) (ValueError "not patched"))
           (delivering succeeded_pi_1) whsec (signed "{}")
           (mkPaymentIntentRequest 1) payer db_catalog (db_with "pending")
           widget (mkPaymentIntentResponse (Some "cs_1") "pi_1")
           succeeded_pi_1 "succeeded").
  - repeat constructor. intros [].
  - left. reflexivity.
  - reflexivity.
  - reflexivity.
  - apply signed_is_valid.
  - reflexivity.
  - reflexivity.
Defined.

(** X4.  The gateway returns a payment intent whose id a stored payment
    already has: the insert is refused, the handler lets the store's
    [IntegrityError] through (a 500), and the store, the earlier payment
    with it, is as it was. *)
Theorem stored_intent_id_refused
    (stripe : Stripe) (intent_request : PaymentIntentRequest)
    (current_user : UserOutput) (db : Database)
    (product : products.row) (payment_intent : PaymentIntent)
    (r : payments.row) :
  unique_product_ids db ->
  In product (products_rows db) ->
  products.id product = product_id intent_request ->
  PaymentIntent_create stripe (products.price_in_pence product) "gbp"
    (metadata (uo_id current_user) (product_id intent_request))
  = Created payment_intent ->
  In r (payments_rows db) ->
  payments.stripe_payment_intent_id r = pi_id payment_intent ->
  exists e,
    initiate_payment stripe intent_request current_user db = (Raise e, db) /\
    e = IntegrityError "payments_stripe_payment_intent_id_key" /\
    http_status e = 500.
Proof.
  intros U Hin Hid Hcreated Hr Er.
  rewrite (initiate_payment_found stripe intent_request current_user db
             product U Hin Hid), Hcreated.
  unfold bind, execute_insert_payment.
  assert (existsb
            (fun r0 => payments.stripe_payment_intent_id r0
                       =? pi_id payment_intent) (payments_rows db) = true)
    as ->.
  { apply existsb_exists. exists r. split; [exact Hr|].
    apply String.eqb_eq. exact Er. }
  eexists. repeat split.
Qed.

Lemma stored_intent_id_refused_witness :
  exists e,
    initiate_payment (patched (Created pi_1) (ValueError "not patched"))
      (mkPaymentIntentRequest 1) payer (db_with "succeeded")
    = (Raise e, db_with "succeeded") /\
    e = IntegrityError "payments_stripe_payment_intent_id_key" /\
    http_status e = 500.
Proof.
  apply (stored_intent_id_refused
           (patched (Created pi_1) (ValueError "not patched"))
           (mkPaymentIntentRequest 1) payer (db_with "succeeded") widget pi_1
           (payment_pi_1 "succeeded")).
  - repeat constructor. intros [].
  - left. reflexivity.
  - reflexivity.
  - reflexivity.
  - left. reflexivity.
  - reflexivity.
Defined.

(* ================================================================== *)
(** ** Products and transactions *)

Lemma find_appended {A} (f : A -> bool) (l : list A) (a : A) :
  (forall b, In b l -> f b = false) -> f a = true ->
  find f (l ++ [a]) = Some a.
Proof.
  induction l as [|b l IH]; simpl; intros Hl Ha.
  - rewrite Ha. reflexivity.
  - rewrite (Hl b (or_introl eq_refl)). apply IH; [|exact Ha].
    intros c Hc. apply Hl. right. exact Hc.
Qed.

Lemma find_not_appended {A} (f : A -> bool) (l : list A) (a : A) :
  f a = false -> find f (l ++ [a]) = find f l.
Proof.
  intros Ha. induction l as [|b l IH]; simpl.
  - rewrite Ha. reflexivity.
  - destruct (f b); [reflexivity|exact IH].
Qed.

Lemma NoDup_appended {A} (l : list A) (a : A) :
  NoDup l -> ~ In a l -> NoDup (l ++ [a]).
Proof.
  induction l as [|b l IH]; simpl; intros ND Hnotin.
  - constructor; [intros []|constructor].
  - inversion ND as [|? ? Hb ND']; subst. constructor.
    + rewrite in_app_iff. intros [H|[H|[]]]; [exact (Hb H)|].
      apply Hnotin. left. symmetry. exact H.
    + apply IH; [exact ND'|]. intros H. apply Hnotin. right. exact H.
Qed.

(** X5.  [create_product] refuses a price outside the INTEGER range and a
    name the store does not accept, raising the store's [DataError] with
    the store unchanged.  Otherwise it returns the product as it was given
    under a key no product had, and appends one row to [products], the
    name as the store keeps it; keys stay unique, every other product is
    looked up as before, the other tables are untouched.  And the product
    can be bought at once: for the key returned, [initiate_payment] asks
    the gateway for the price just given and, when the gateway returns a
    new intent, stores a pending payment of that price. *)
Theorem created_product_can_be_bought
    (varchar : nat -> string -> option string)
    (product_in : ProductInput) (db : Database) :
  unique_product_ids db ->
  let answer := create_product varchar product_in db in
  let db1 := snd answer in
  (int32 (pin_price_in_pence product_in) = false ->
   answer = (Raise out_of_int32, db)) /\
  (int32 (pin_price_in_pence product_in) = true ->
   varchar 100%nat (pin_name product_in) = None ->
   answer = (Raise value_too_long, db)) /\
  (forall name_kept,
   int32 (pin_price_in_pence product_in) = true ->
   varchar 100%nat (pin_name product_in) = Some name_kept ->
   exists new_id,
    fst answer
    = Return (mkProductOutput new_id (pin_name product_in)
                (pin_price_in_pence product_in)) /\
    ~ In new_id (map products.id (products_rows db)) /\
    products_rows db1
    = (products_rows db ++
       [products.mk new_id name_kept (pin_price_in_pence product_in)])%list /\
    unique_product_ids db1 /\
    users_rows db1 = users_rows db /\
    transactions_rows db1 = transactions_rows db /\
    payments_rows db1 = payments_rows db /\
    (forall pid, pid <> new_id ->
       fst (fetch_one_product pid db1) = fst (fetch_one_product pid db)) /\
    (forall stripe current_user payment_intent,
       PaymentIntent_create stripe (pin_price_in_pence product_in) "gbp"
         (metadata (uo_id current_user) new_id)
       = Created payment_intent ->
       (forall r, In r (payments_rows db) ->
          payments.stripe_payment_intent_id r <> pi_id payment_intent) ->
       exists payment_id db2,
         initiate_payment stripe (mkPaymentIntentRequest new_id) current_user
           db1
         = (Return (mkPaymentIntentResponse (pi_client_secret payment_intent)
                      (pi_id payment_intent)),
            db2) /\
         payments_rows db2
         = (payments_rows db ++
            [payments.mk payment_id new_id (str (uo_id current_user))
               (pi_id payment_intent) "pending"
               (pin_price_in_pence product_in)])%list)).
Proof.
  intros U. cbv zeta.
  unfold create_product, bind, execute_insert_product, ret.
  split; [|split].
  - intros ->. reflexivity.
  - intros -> ->. reflexivity.
  - intros name_kept -> ->.
    exists (next_id (map products.id (products_rows db))).
    pose proof (next_id_fresh (map products.id (products_rows db))) as Hfresh.
    set (row := products.mk (next_id (map products.id (products_rows db)))
                  name_kept (pin_price_in_pence product_in)).
    assert (unique_product_ids
              (with_products db (products_rows db ++ [row])%list)) as U1.
    { unfold unique_product_ids. simpl. rewrite map_app. simpl.
      apply NoDup_appended; assumption. }
    simpl. fold row.
    split; [reflexivity|]. split; [exact Hfresh|]. split; [reflexivity|].
    split; [exact U1|]. split; [reflexivity|]. split; [reflexivity|].
    split; [reflexivity|]. split.
    + intros pid Hpid. unfold fetch_one_product. simpl.
      rewrite find_not_appended
        by (simpl; apply Z.eqb_neq; congruence).
      destruct (find _ _); [reflexivity|].
      destruct (int32 pid); reflexivity.
    + intros stripe current_user payment_intent Hcreated Hnew.
      rewrite (initiate_payment_found stripe _ current_user _ row U1);
        [|simpl; apply in_or_app; right; left; reflexivity|reflexivity].
      simpl in *. rewrite Hcreated.
      unfold bind, execute_insert_payment, ret. simpl.
      destruct (existsb _ _) eqn:E.
      * apply existsb_exists in E. destruct E as (r & Hr & Er).
        apply String.eqb_eq in Er. destruct (Hnew r Hr Er).
      * eexists. eexists. split; reflexivity.
Qed.

Lemma created_product_can_be_bought_witness :
  create_product up_to (mkProductInput "Gadget" 2147483648) db_catalog
  = (Raise out_of_int32, db_catalog) /\
  exists new_id,
    fst (create_product up_to (mkProductInput "Gadget" 2500) db_catalog)
    = Return (mkProductOutput new_id "Gadget" 2500) /\
    ~ In new_id (map products.id (products_rows db_catalog)).
Proof.
  split.
  - apply (created_product_can_be_bought up_to
             (mkProductInput "Gadget" 2147483648) db_catalog).
    + repeat constructor. intros [].
    + reflexivity.
  - destruct (created_product_can_be_bought up_to
                (mkProductInput "Gadget" 2500) db_catalog)
      as (_ & _ & Hbought).
    + repeat constructor. intros [].
    + destruct (Hbought "Gadget" eq_refl eq_refl)
        as (new_id & Hanswer & Hfresh & _).
      exists new_id. split; [exact Hanswer|exact Hfresh].
Defined.

(** X6.  [create_transaction] raises the store's [DataError], with the
    store unchanged, when the store refuses the user id, the amount or the
    description.  When it accepts the three it returns the transaction as
    it was given under a key no transaction had, and appends one row to
    [transactions] holding the values as the store keeps them; the rows
    [get_transactions_for_user] finds for the user id kept are then the
    rows it found before and the new one, a transaction read back with the
    amount and the description as kept; the rows it finds for every other
    user id are the ones it found before; and the two routes leave the
    other tables alone. *)
Theorem created_transaction_is_listed
    (varchar : nat -> string -> option string)
    (Decimal : Type) (to_numeric : Decimal -> option Z)
    (of_numeric : Z -> Decimal)
    (txn_in : TransactionInput Decimal) (db : Database) :
  let answer := create_transaction varchar Decimal to_numeric txn_in db in
  let db1 := snd answer in
  let listing user_id db :=
    fst (get_transactions_for_user Decimal of_numeric user_id db) in
  ((varchar 50%nat (tin_user_id txn_in) = None \/
    to_numeric (tin_amount txn_in) = None \/
    varchar 255%nat (tin_description txn_in) = None) ->
   exists message, answer = (Raise (DataError message), db)) /\
  (forall user_id_kept amount_kept description_kept,
   varchar 50%nat (tin_user_id txn_in) = Some user_id_kept ->
   to_numeric (tin_amount txn_in) = Some amount_kept ->
   varchar 255%nat (tin_description txn_in) = Some description_kept ->
   exists new_id,
    fst answer
    = Return (mkTransactionOutput new_id (tin_user_id txn_in)
                (tin_amount txn_in) (tin_description txn_in)) /\
    ~ In new_id (map transactions.id (transactions_rows db)) /\
    transactions_rows db1
    = (transactions_rows db ++
       [transactions.mk new_id user_id_kept amount_kept
          description_kept])%list /\
    (forall before,
       listing user_id_kept db = Return before ->
       exists after,
         listing user_id_kept db1 = Return after /\
         (forall t, In t after <->
            In t before \/
            t = mkTransactionOutput new_id user_id_kept
                  (of_numeric amount_kept) description_kept) /\
         List.length after = S (List.length before)) /\
    (forall other,
       other <> user_id_kept -> listing other db1 = listing other db) /\
    users_rows db1 = users_rows db /\
    products_rows db1 = products_rows db /\
    payments_rows db1 = payments_rows db /\
    (forall user_id,
       snd (get_transactions_for_user Decimal of_numeric user_id db1) = db1)).
Proof.
  cbv zeta.
  unfold create_transaction, bind, execute_insert_transaction, ret.
  split.
  - intros Hrefused.
    destruct (varchar 50%nat (tin_user_id txn_in)) as [u|];
      destruct (to_numeric (tin_amount txn_in)) as [a|];
      destruct (varchar 255%nat (tin_description txn_in)) as [d|];
      try (eexists; reflexivity).
    destruct Hrefused as [H|[H|H]]; discriminate.
  - intros user_id_kept amount_kept description_kept -> -> ->.
    exists (next_id (map transactions.id (transactions_rows db))). simpl.
    split; [reflexivity|]. split; [apply next_id_fresh|].
    split; [reflexivity|].
    split; [|split; [|repeat split]].
    + intros before Hbefore.
      unfold get_transactions_for_user, bind, fetch_all_transactions, ret in *.
      simpl in *. injection Hbefore as <-.
      rewrite filter_app, map_app. simpl.
      rewrite String.eqb_refl. simpl.
      eexists. split; [reflexivity|]. split.
      * intros t. rewrite in_app_iff. simpl. intuition.
      * rewrite length_app. simpl. lia.
    + intros other Hother.
      unfold get_transactions_for_user, bind, fetch_all_transactions, ret.
      simpl. rewrite filter_app. simpl.
      rewrite (proj2 (String.eqb_neq _ _) (fun E => Hother (eq_sym E))).
      rewrite app_nil_r. reflexivity.
Qed.

(* ================================================================== *)
(** ** Registration, login and the current user *)

Lemma find_no_match {A} (f : A -> bool) (l : list A) :
  (forall b, In b l -> f b = false) -> find f l = None.
Proof.
  induction l as [|b l IH]; simpl; intros Hl; [reflexivity|].
  rewrite (Hl b (or_introl eq_refl)). apply IH.
  intros c Hc. apply Hl. right. exact Hc.
Qed.

Lemma find_the_match {A} (f : A -> bool) (l : list A) (a : A) :
  In a l -> f a = true ->
  (forall b, In b l -> f b = true -> b = a) ->
  find f l = Some a.
Proof.
  induction l as [|b l IH]; simpl; intros Hin Ha Honly; [contradiction|].
  destruct (f b) eqn:Eb.
  - f_equal. apply Honly; [left; reflexivity|exact Eb].
  - destruct Hin as [->|Hin]; [congruence|].
    apply IH; [exact Hin|exact Ha|].
    intros c Hc. apply Honly. right. exact Hc.
Qed.

Lemma NoDup_map_same {A B} (f : A -> B) (l : list A) (a b : A) :
  NoDup (map f l) -> In a l -> In b l -> f b = f a -> b = a.
Proof.
  induction l as [|c l IH]; simpl; intros ND Ha Hb E; [contradiction|].
  inversion ND as [|? ? Hnotin ND']; subst.
  destruct Ha as [->|Ha], Hb as [->|Hb].
  - reflexivity.
  - exfalso. apply Hnotin. rewrite <- E. apply in_map. exact Hb.
  - exfalso. apply Hnotin. rewrite E. apply in_map. exact Ha.
  - apply IH; assumption.
Qed.

Lemma find_user_by_id (us : list users.row) (u : users.row) :
  NoDup (map users.id us) -> In u us ->
  find (fun v => users.id v =? users.id u)%Z us = Some u.
Proof.
  intros ND Hin. apply find_the_match; [exact Hin|apply Z.eqb_refl|].
  intros v Hv E. apply Z.eqb_eq in E.
  exact (NoDup_map_same users.id us u v ND Hin Hv E).
Qed.

Lemma find_user_by_email (us : list users.row) (u : users.row) :
  NoDup (map users.email us) -> In u us ->
  find (fun v => users.email v =? users.email u) us = Some u.
Proof.
  intros ND Hin. apply find_the_match; [exact Hin|apply String.eqb_refl|].
  intros v Hv E. apply String.eqb_eq in E.
  exact (NoDup_map_same users.email us u v ND Hin Hv E).
Qed.

Lemma existsb_email_false (email : string) (us : list users.row) :
  existsb (fun u => users.email u =? email) us = false ->
  forall u, In u us -> users.email u <> email.
Proof.
  intros E u Hin Hu.
  assert (existsb (fun u => users.email u =? email) us = true) as E'.
  { apply existsb_exists. exists u. split; [exact Hin|].
    apply String.eqb_eq. exact Hu. }
  congruence.
Qed.

Lemma dict_get_update_same (d : dict) (key : string) (v : claim) :
  dict_get (dict_update d key v) key = Some v.
Proof.
  unfold dict_get. induction d as [|[k v'] d IH]; simpl.
  - rewrite String.eqb_refl. reflexivity.
  - destruct (k =? key) eqn:E; simpl.
    + rewrite String.eqb_refl. reflexivity.
    + rewrite E. exact IH.
Qed.

Lemma dict_get_update_other (d : dict) (key other : string) (v : claim) :
  other <> key ->
  dict_get (dict_update d key v) other = dict_get d other.
Proof.
  intros Hne. unfold dict_get. induction d as [|[k v'] d IH]; simpl.
  - rewrite (proj2 (String.eqb_neq _ _) (fun E => Hne (eq_sym E))).
    reflexivity.
  - destruct (k =? key) eqn:E; simpl.
    + apply String.eqb_eq in E. subst k.
      rewrite (proj2 (String.eqb_neq _ _) (fun E => Hne (eq_sym E))).
      reflexivity.
    + destruct (k =? other); [reflexivity|exact IH].
Qed.

(** X7.  Registering an email a user already has is answered 400 "Email
    already registered." and stores nothing. *)
Theorem register_user_known_email
    (pwd_context : CryptContext) (user_in : UserCreate) (db : Database)
    (hashed_pass : string) (u : users.row) :
  pwd_hash pwd_context (uc_password user_in) = Some hashed_pass ->
  In u (users_rows db) ->
  users.email u = uc_email user_in ->
  register_user pwd_context user_in db
  = (Raised (HTTPException 400 "Email already registered."), db).
Proof.
  intros Hhash Hin Hemail.
  unfold register_user, hash_password. rewrite Hhash.
  unfold and_then, try_except, execute_insert_user.
  assert (existsb (fun v => users.email v =? uc_email user_in)
            (users_rows db) = true) as ->.
  { apply existsb_exists. exists u. split; [exact Hin|].
    apply String.eqb_eq. exact Hemail. }
  reflexivity.
Qed.

Lemma register_user_known_email_witness :
  register_user tagging_context
    (mkUserCreate "payment_user@example.com" "differentpassword") db_catalog
  = (Raised (HTTPException 400 "Email already registered."), db_catalog).
Proof.
  apply (register_user_known_email tagging_context
           (mkUserCreate "payment_user@example.com" "differentpassword")
           db_catalog "$2b$differentpassword"
           (users.mk 1 "payment_user@example.com" "$2b$12$hash")).
  - reflexivity.
  - left. reflexivity.
  - reflexivity.
Defined.

(** X8.  Registering an email no user has returns the new user's key and
    the email, and appends one row to [users], under a key no user had,
    holding the email and what [pwd_context.hash] returned for the
    password; it keeps emails and keys unique and touches no other
    table. *)
Theorem register_user_new_email
    (pwd_context : CryptContext) (user_in : UserCreate) (db : Database)
    (hashed_pass : string) :
  pwd_hash pwd_context (uc_password user_in) = Some hashed_pass ->
  (forall u, In u (users_rows db) -> users.email u <> uc_email user_in) ->
  let answer := register_user pwd_context user_in db in
  let db1 := snd answer in
  exists new_id,
    fst answer = Value (mkUserOutput new_id (uc_email user_in)) /\
    ~ In new_id (map users.id (users_rows db)) /\
    users_rows db1
    = (users_rows db ++
       [users.mk new_id (uc_email user_in) hashed_pass])%list /\
    (NoDup (map users.email (users_rows db)) ->
     NoDup (map users.email (users_rows db1))) /\
    (NoDup (map users.id (users_rows db)) ->
     NoDup (map users.id (users_rows db1))) /\
    transactions_rows db1 = transactions_rows db /\
    products_rows db1 = products_rows db /\
    payments_rows db1 = payments_rows db.
Proof.
  intros Hhash Hnew. cbv zeta.
  unfold register_user, hash_password. rewrite Hhash.
  unfold and_then, try_except, execute_insert_user.
  destruct (existsb _ _) eqn:E.
  { apply existsb_exists in E. destruct E as (u & Hu & Eu).
    apply String.eqb_eq in Eu. destruct (Hnew u Hu Eu). }
  exists (next_id (map users.id (users_rows db))). simpl.
  pose proof (next_id_fresh (map users.id (users_rows db))) as Hfresh.
  repeat split; try assumption.
  - intros ND. rewrite map_app. simpl. apply NoDup_appended; [exact ND|].
    intros Hin. apply in_map_iff in Hin. destruct Hin as (u & Eu & Hu).
    exact (Hnew u Hu Eu).
  - intros ND. rewrite map_app. simpl. apply NoDup_appended; assumption.
Qed.

Lemma register_user_new_email_witness :
  let answer :=
    register_user tagging_context
      (mkUserCreate "test@example.com" "securepassword123") db_catalog in
  exists new_id,
    fst answer = Value (mkUserOutput new_id "test@example.com") /\
    ~ In new_id (map users.id (users_rows db_catalog)).
Proof.
  destruct (register_user_new_email tagging_context
              (mkUserCreate "test@example.com" "securepassword123")
              db_catalog "$2b$securepassword123")
    as (new_id & Hanswer & Hfresh & _).
  - reflexivity.
  - intros u [<-|[]]. discriminate.
  - exists new_id. split; [exact Hanswer|exact Hfresh].
Defined.


(** The claims a login encodes for a user. *)
Lemma login_claims (id now : Z) :
  dict_update [("sub", Str (str id))] "exp"
    (Num (now + ACCESS_TOKEN_EXPIRE_MINUTES * 60))
  = [("sub", Str (str id)); ("exp", Num (now + 1800))].
Proof. reflexivity. Qed.

(** X10.  Register, then log in.  After a registration that returned, a
    login with the same email and a password that verifies against the
    stored hash returns a bearer token, the one [jwt.encode] gives for the
    claims [sub] = the new user's key as a string and [exp] = now + 1800
    seconds; a login with a password that does not verify is refused.
    Neither changes the store. *)
Theorem registered_user_can_log_in
    (pwd_context pwd_context' : CryptContext) (jwt : Jose)
    (JWT_SECRET_KEY JWT_ALGORITHM : string) (now : Z)
    (user_in : UserCreate) (db db1 : Database) (out : UserOutput)
    (hashed_pass : string) :
  pwd_hash pwd_context (uc_password user_in) = Some hashed_pass ->
  register_user pwd_context user_in db = (Value out, db1) ->
  (forall access_token,
     pwd_verify pwd_context' (uc_password user_in) hashed_pass = Some true ->
     jwt_encode jwt [("sub", Str (str (uo_id out))); ("exp", Num (now + 1800))]
       JWT_SECRET_KEY JWT_ALGORITHM
     = Some access_token ->
     login_for_access_token pwd_context' jwt JWT_SECRET_KEY JWT_ALGORITHM now
       (mkOAuth2PasswordRequestForm (uc_email user_in) (uc_password user_in))
       db1
     = (Value (mkToken access_token "bearer"), db1)) /\
  (forall wrong,
     pwd_verify pwd_context' wrong hashed_pass = Some false ->
     login_for_access_token pwd_context' jwt JWT_SECRET_KEY JWT_ALGORITHM now
       (mkOAuth2PasswordRequestForm (uc_email user_in) wrong) db1
     = (Raised (HTTPException 401 "Incorrect email or password"), db1)).
Proof.
  intros Hhash Hreg.
  unfold register_user, hash_password in Hreg. rewrite Hhash in Hreg.
  unfold and_then, try_except, execute_insert_user, value in Hreg.
  destruct (existsb _ _) eqn:E; [discriminate|].
  injection Hreg as <- <-.
  assert (find (fun u => users.email u =? uc_email user_in)
            (users_rows db ++
             [users.mk (next_id (map users.id (users_rows db)))
                (uc_email user_in) hashed_pass])%list
          = Some (users.mk (next_id (map users.id (users_rows db)))
                    (uc_email user_in) hashed_pass)) as Hfind.
  { apply find_appended; [|apply String.eqb_refl].
    intros u Hu. apply String.eqb_neq.
    exact (existsb_email_false _ _ E u Hu). }
  split.
  - intros access_token Hverify Hencode.
    unfold login_for_access_token, and_then, lift, fetch_one_user_by_email,
      verify_password, create_access_token.
    simpl. rewrite Hfind. simpl. rewrite Hverify.
    simpl in Hencode. rewrite Hencode. reflexivity.
  - intros wrong Hverify.
    unfold login_for_access_token, and_then, lift, fetch_one_user_by_email,
      verify_password.
    simpl. rewrite Hfind. simpl. rewrite Hverify. reflexivity.
Qed.

Lemma registered_user_can_log_in_witness :
  login_for_access_token tagging_context one_token "secret" "HS256"
    1700000000
    (mkOAuth2PasswordRequestForm "test@example.com" "securepassword123")
    db_registered
  = (Value (mkToken "header.payload.signature" "bearer"), db_registered).
Proof.
  apply (proj1
           (registered_user_can_log_in tagging_context tagging_context
              one_token "secret" "HS256" 1700000000
              (mkUserCreate "test@example.com" "securepassword123")
              db_catalog db_registered
              (mkUserOutput 2 "test@example.com")
              "$2b$securepassword123" eq_refl eq_refl)).
  - reflexivity.
  - reflexivity.
Defined.

(** X11.  Log in, then use the token.  The user's password verifies and
    [jwt.decode] gives back the claims [jwt.encode] was given: the login
    returns the token, with it [get_current_user] returns the user's row
    and [get_my_profile] the user's key and email (and not the hash), and
    the store is as it was throughout. *)
Theorem issued_token_authenticates
    (pwd_context : CryptContext) (jwt : Jose)
    (JWT_SECRET_KEY JWT_ALGORITHM : string) (int : string -> option Z)
    (now : Z) (form_data : OAuth2PasswordRequestForm) (db : Database)
    (u : users.row) (token : string) :
  NoDup (map users.email (users_rows db)) ->
  NoDup (map users.id (users_rows db)) ->
  In u (users_rows db) ->
  users.email u = username form_data ->
  pwd_verify pwd_context (password form_data) (users.hashed_password u)
  = Some true ->
  jwt_encode jwt
    [("sub", Str (str (users.id u))); ("exp", Num (now + 1800))]
    JWT_SECRET_KEY JWT_ALGORITHM
  = Some token ->
  jwt_decode jwt token JWT_SECRET_KEY [JWT_ALGORITHM]
  = Some [("sub", Str (str (users.id u))); ("exp", Num (now + 1800))] ->
  int (str (users.id u)) = Some (users.id u) ->
  login_for_access_token pwd_context jwt JWT_SECRET_KEY JWT_ALGORITHM now
    form_data db
  = (Value (mkToken token "bearer"), db) /\
  get_current_user jwt JWT_SECRET_KEY JWT_ALGORITHM int token db
  = (Value u, db) /\
  get_my_profile jwt JWT_SECRET_KEY JWT_ALGORITHM int token db
  = (Value (mkUserOutput (users.id u) (users.email u)), db).
Proof.
  intros NDe NDi Hin Hemail Hverify Hencode Hdecode Hint.
  assert (get_current_user jwt JWT_SECRET_KEY JWT_ALGORITHM int token db
          = (Value u, db)) as Hcurrent.
  { unfold get_current_user, decode_token. rewrite Hdecode.
    replace (dict_get
               [("sub", Str (str (users.id u))); ("exp", Num (now + 1800))]
               "sub")
      with (Some (Str (str (users.id u)))) by reflexivity.
    unfold int_of_claim. rewrite Hint.
    unfold and_then, lift, fetch_one_user_by_id.
    rewrite (find_user_by_id _ u NDi Hin). reflexivity. }
  split; [|split].
  - unfold login_for_access_token, and_then, lift, fetch_one_user_by_email,
      verify_password, create_access_token.
    rewrite <- Hemail, (find_user_by_email _ u NDe Hin), Hverify.
    rewrite login_claims, Hencode. reflexivity.
  - exact Hcurrent.
  - unfold get_my_profile, and_then. rewrite Hcurrent. reflexivity.
Qed.

Lemma issued_token_authenticates_witness :
  login_for_access_token tagging_context one_token "secret" "HS256"
    1700000000
    (mkOAuth2PasswordRequestForm "payment_user@example.com" "12$hash")
    db_catalog
  = (Value (mkToken "header.payload.signature" "bearer"), db_catalog) /\
  get_current_user one_token "secret" "HS256" int_of_decimal
    "header.payload.signature" db_catalog
  = (Value (users.mk 1 "payment_user@example.com" "$2b$12$hash"), db_catalog) /\
  get_my_profile one_token "secret" "HS256" int_of_decimal
    "header.payload.signature" db_catalog
  = (Value (mkUserOutput 1 "payment_user@example.com"), db_catalog).
Proof.
  apply (issued_token_authenticates tagging_context one_token "secret"
           "HS256" int_of_decimal 1700000000
           (mkOAuth2PasswordRequestForm "payment_user@example.com" "12$hash")
           db_catalog
           (users.mk 1 "payment_user@example.com" "$2b$12$hash")
           "header.payload.signature").
  - repeat constructor. intros [].
  - repeat constructor. intros [].
  - left. reflexivity.
  - reflexivity.
  - reflexivity.
  - reflexivity.
  - reflexivity.
  - reflexivity.
Defined.

(** [get_current_user] only reads. *)
Lemma current_user_store
    (jwt : Jose) (JWT_SECRET_KEY JWT_ALGORITHM : string)
    (int : string -> option Z) (token : string) (db : Database) :
  snd (get_current_user jwt JWT_SECRET_KEY JWT_ALGORITHM int token db) = db.
Proof.
  unfold get_current_user, decode_token.
  destruct (jwt_decode _ _ _ _) as [payload|]; [|reflexivity].
  destruct (dict_get payload "sub") as [c|]; [|reflexivity].
  destruct (int_of_claim int c) as [id|]; [|reflexivity].
  unfold and_then, lift, fetch_one_user_by_id.
  destruct (find _ _); [reflexivity|].
  destruct (int32 id); reflexivity.
Qed.

(** X12.  [get_current_user] answers the same 401 "Could not validate
    credentials" when the token does not decode, when its payload has no
    [sub], and when [sub] names a key the column can hold and no user has.
    A [sub] that [int] refuses is not a 401 but the uncaught [ValueError],
    and a [sub] that names an integer outside the INTEGER range, which no
    user has, is not a 401 either but the driver's uncaught [DataError].
    No call changes the store. *)
Theorem current_user_rejections
    (jwt : Jose) (JWT_SECRET_KEY JWT_ALGORITHM : string)
    (int : string -> option Z) (token : string) (db : Database) :
  let answer :=
    get_current_user jwt JWT_SECRET_KEY JWT_ALGORITHM int token db in
  let decoded := jwt_decode jwt token JWT_SECRET_KEY [JWT_ALGORITHM] in
  (decoded = None -> answer = (Raised credentials_exception, db)) /\
  (forall payload,
     decoded = Some payload -> dict_get payload "sub" = None ->
     answer = (Raised credentials_exception, db)) /\
  (forall payload c id,
     decoded = Some payload -> dict_get payload "sub" = Some c ->
     int_of_claim int c = Some id ->
     (forall u, In u (users_rows db) -> users.id u <> id) ->
     int32 id = true ->
     answer = (Raised credentials_exception, db)) /\
  (forall payload c id,
     decoded = Some payload -> dict_get payload "sub" = Some c ->
     int_of_claim int c = Some id ->
     (forall u, In u (users_rows db) -> users.id u <> id) ->
     int32 id = false ->
     answer = (Raised out_of_int32, db) /\ http_status out_of_int32 = 500) /\
  (forall payload c,
     decoded = Some payload -> dict_get payload "sub" = Some c ->
     int_of_claim int c = None ->
     answer = (Crashed "int", db)) /\
  snd answer = db.
Proof.
  cbv zeta. unfold get_current_user, decode_token.
  split; [|split; [|split; [|split; [|split]]]].
  - intros ->. reflexivity.
  - intros payload -> ->. reflexivity.
  - intros payload c id -> -> -> Hnone Hfits.
    unfold and_then, lift, fetch_one_user_by_id.
    rewrite find_no_match, Hfits; [reflexivity|].
    intros u Hu. apply Z.eqb_neq. apply Hnone. exact Hu.
  - intros payload c id -> -> -> Hnone Hfits.
    unfold and_then, lift, fetch_one_user_by_id.
    rewrite find_no_match, Hfits; [split; reflexivity|].
    intros u Hu. apply Z.eqb_neq. apply Hnone. exact Hu.
  - intros payload c -> -> ->. reflexivity.
  - destruct (jwt_decode _ _ _ _) as [payload|]; [|reflexivity].
    destruct (dict_get payload "sub") as [c|]; [|reflexivity].
    destruct (int_of_claim int c) as [id|]; [|reflexivity].
    unfold and_then, lift, fetch_one_user_by_id.
    destruct (find _ _); [reflexivity|].
    destruct (int32 id); reflexivity.
Qed.

(** X13.  No payment without a current user.  When [get_current_user] does
    not return a user for the token, the payment route does not return
    either, leaves the store as it was, and answers the same whatever the
    gateway would have done: the gateway is not asked. *)
Theorem no_payment_without_user
    (stripe : Stripe) (jwt : Jose) (JWT_SECRET_KEY JWT_ALGORITHM : string)
    (int : string -> option Z) (token : string)
    (intent_request : PaymentIntentRequest) (db : Database) :
  (forall u,
     fst (get_current_user jwt JWT_SECRET_KEY JWT_ALGORITHM int token db)
     <> Value u) ->
  let route stripe :=
    authenticated_initiate_payment stripe jwt JWT_SECRET_KEY JWT_ALGORITHM
      int token intent_request db in
  snd (route stripe) = db /\
  (forall response, fst (route stripe) <> Value response) /\
  (forall stripe', route stripe' = route stripe).
Proof.
  intros Hnone. cbv zeta. unfold authenticated_initiate_payment, and_then.
  pose proof (current_user_store jwt JWT_SECRET_KEY JWT_ALGORITHM int token db)
    as Hstore.
  destruct (get_current_user jwt JWT_SECRET_KEY JWT_ALGORITHM int token db)
    as [[u|e|c] db'] eqn:E; simpl in *.
  - destruct (Hnone u eq_refl).
  - subst db'. repeat split. discriminate.
  - subst db'. repeat split. discriminate.
Qed.

Lemma no_payment_without_user_witness :
  let route stripe :=
    authenticated_initiate_payment stripe one_token "secret" "HS256"
      int_of_decimal "not.a.token" (mkPaymentIntentRequest 1) db_catalog in
  snd (route (patched (Created pi_1) (ValueError "not patched"))) = db_catalog /\
  (forall response,
     fst (route (patched (Created pi_1) (ValueError "not patched")))
     <> Value response) /\
  (forall stripe',
     route stripe' = route (patched (Created pi_1) (ValueError "not patched"))).
Proof.
  apply (no_payment_without_user
           (patched (Created pi_1) (ValueError "not patched")) one_token
           "secret" "HS256" int_of_decimal "not.a.token"
           (mkPaymentIntentRequest 1) db_catalog).
  intros u. discriminate.
Defined.

(** X14.  Every token is made to expire 30 minutes after it is issued:
    [create_access_token] hands [jwt.encode] the claims it was given with
    [exp] set to now + 1800 seconds, an [exp] among them overwritten, and
    every other claim as given. *)
Theorem access_token_expiry
    (jwt : Jose) (JWT_SECRET_KEY JWT_ALGORITHM : string) (now : Z)
    (data_to_encode : dict) :
  exists to_encode,
    create_access_token jwt JWT_SECRET_KEY JWT_ALGORITHM now data_to_encode
    = jwt_encode jwt to_encode JWT_SECRET_KEY JWT_ALGORITHM /\
    dict_get to_encode "exp" = Some (Num (now + 1800)) /\
    (forall key, key <> "exp" ->
       dict_get to_encode key = dict_get data_to_encode key) /\
    (dict_get data_to_encode "exp" = None ->
       to_encode = (data_to_encode ++ [("exp", Num (now + 1800))])%list).
Proof.
  exists (dict_update data_to_encode "exp" (Num (now + 1800))).
  split; [reflexivity|]. split; [apply dict_get_update_same|].
  split; [intros key Hkey; apply dict_get_update_other; exact Hkey|].
  unfold dict_get. induction data_to_encode as [|[k v] d IH]; simpl.
  - reflexivity.
  - destruct (k =? "exp") eqn:E; [discriminate|].
    intros Hnone. rewrite (IH Hnone). reflexivity.
Qed.

(* ================================================================== *)
(** ** What every reachable store satisfies *)

Lemma register_user_store pwd_context user_in db :
  snd (register_user pwd_context user_in db) = db \/
  exists hashed_pass,
    (forall u, In u (users_rows db) -> users.email u <> uc_email user_in) /\
    snd (register_user pwd_context user_in db)
    = with_users db
        (users_rows db ++
         [users.mk (next_id (map users.id (users_rows db)))
            (uc_email user_in) hashed_pass]).
Proof.
  unfold register_user, hash_password.
  destruct (pwd_hash pwd_context (uc_password user_in)) as [hashed_pass|];
    [|left; reflexivity].
  unfold and_then, try_except, execute_insert_user.
  destruct (existsb _ _) eqn:E; [left; reflexivity|].
  right. exists hashed_pass. split; [|reflexivity].
  apply existsb_email_false. exact E.
Qed.

Lemma login_store pwd_context jwt key algorithm now form_data db :
  snd (login_for_access_token pwd_context jwt key algorithm now form_data db)
  = db.
Proof.
  unfold login_for_access_token, and_then, lift, fetch_one_user_by_email,
    verify_password.
  destruct (find _ _) as [u|]; [|reflexivity].
  destruct (pwd_verify _ _ _) as [[|]|]; try reflexivity.
  destruct (create_access_token _ _ _ _ _); reflexivity.
Qed.

Lemma get_my_profile_store jwt key algorithm int token db :
  snd (get_my_profile jwt key algorithm int token db) = db.
Proof.
  unfold get_my_profile, and_then.
  pose proof (current_user_store jwt key algorithm int token db) as Hstore.
  destruct (get_current_user jwt key algorithm int token db)
    as [[u|e|c] db']; exact Hstore.
Qed.

(** The user [get_current_user] returns is a row of [users]. *)
Lemma current_user_registered jwt key algorithm int token db u db' :
  get_current_user jwt key algorithm int token db = (Value u, db') ->
  In u (users_rows db) /\ db' = db.
Proof.
  unfold get_current_user, decode_token.
  destruct (jwt_decode _ _ _ _) as [payload|]; [|discriminate].
  destruct (dict_get payload "sub") as [c|]; [|discriminate].
  destruct (int_of_claim int c) as [id|]; [|discriminate].
  unfold and_then, lift, fetch_one_user_by_id.
  destruct (find _ _) as [v|] eqn:E;
    [|destruct (int32 id); discriminate].
  intros Heq. injection Heq as <- <-.
  split; [|reflexivity]. apply find_some in E. apply E.
Qed.

Lemma initiate_payment_store stripe intent_request current_user db :
  snd (initiate_payment stripe intent_request current_user db) = db \/
  exists product payment_intent,
    In product (products_rows db) /\
    products.id product = product_id intent_request /\
    (forall r, In r (payments_rows db) ->
       payments.stripe_payment_intent_id r <> pi_id payment_intent) /\
    snd (initiate_payment stripe intent_request current_user db)
    = with_payments db
        (payments_rows db ++
         [payments.mk (next_id (map payments.id (payments_rows db)))
            (product_id intent_request) (str (uo_id current_user))
            (pi_id payment_intent) "pending"
            (products.price_in_pence product)]).
Proof.
  unfold initiate_payment, bind, fetch_one_product, execute_insert_payment,
    ret.
  destruct (find _ _) as [product|] eqn:Efind;
    [|left; destruct (int32 _); reflexivity].
  destruct (PaymentIntent_create stripe _ _ _) as [payment_intent|e|e|e];
    try (left; reflexivity).
  destruct (existsb _ _) eqn:E; [left; reflexivity|].
  right. exists product, payment_intent.
  apply find_some in Efind. destruct Efind as [Hin Hid].
  apply Z.eqb_eq in Hid.
  split; [exact Hin|]. split; [exact Hid|].
  split; [apply existsb_intent_false; exact E|reflexivity].
Qed.

Lemma webhook_store_known stripe secret request db :
  snd (stripe_webhook stripe secret request db) = db \/
  exists x s,
    (s = "succeeded" \/ s = "failed") /\
    snd (stripe_webhook stripe secret request db)
    = with_payments db (map (update_row x s) (payments_rows db)).
Proof.
  unfold stripe_webhook.
  destruct (negb (truthy (headers_get request "stripe-signature")));
    [left; reflexivity|].
  destruct (secret =? ""); [left; reflexivity|].
  destruct (Webhook_construct_event stripe _ _ _) as [event|e|e];
    try (left; reflexivity).
  destruct (ev_type event =? "payment_intent.succeeded").
  { right. exists (ev_data_object_id event), "succeeded".
    split; [left|]; reflexivity. }
  destruct (ev_type event =? "payment_intent.payment_failed").
  { right. exists (ev_data_object_id event), "failed".
    split; [right|]; reflexivity. }
  left. reflexivity.
Qed.

Section Preservation.

Variable db : Database.
Hypothesis Hdb : consistent db.

Lemma consistent_user_appended (email hashed_pass : string) :
  (forall u, In u (users_rows db) -> users.email u <> email) ->
  consistent
    (with_users db
       (users_rows db ++
        [users.mk (next_id (map users.id (users_rows db))) email
           hashed_pass])).
Proof.
  intros Hnew. destruct Hdb. constructor; simpl; try assumption.
  - rewrite map_app. simpl. apply NoDup_appended; [assumption|].
    apply next_id_fresh.
  - rewrite map_app. simpl. apply NoDup_appended; [assumption|].
    intros Hin. apply in_map_iff in Hin. destruct Hin as (u & Eu & Hu).
    exact (Hnew u Hu Eu).
  - intros r Hr. destruct (payment_users0 r Hr) as (u & Hu & Eu).
    exists u. split; [apply in_or_app; left; exact Hu|exact Eu].
Qed.

Lemma consistent_product_appended (name : string) (price : Z) :
  consistent
    (with_products db
       (products_rows db ++
        [products.mk (next_id (map products.id (products_rows db))) name
           price])).
Proof.
  destruct Hdb. constructor; simpl; try assumption.
  - unfold unique_product_ids. simpl. rewrite map_app. simpl.
    apply NoDup_appended; [assumption|]. apply next_id_fresh.
  - intros r Hr. destruct (payment_products0 r Hr) as (p & Hp & Ep).
    exists p. split; [apply in_or_app; left; exact Hp|exact Ep].
Qed.

Lemma consistent_transaction_appended (user_id : string) (amount : Z)
    (description : string) :
  consistent
    (with_transactions db
       (transactions_rows db ++
        [transactions.mk
           (next_id (map transactions.id (transactions_rows db))) user_id
           amount description])).
Proof.
  destruct Hdb. constructor; simpl; try assumption.
  rewrite map_app. simpl. apply NoDup_appended; [assumption|].
  apply next_id_fresh.
Qed.

Lemma consistent_payment_appended
    (product : products.row) (u : users.row) (intent_id : string) :
  In product (products_rows db) ->
  In u (users_rows db) ->
  (forall r, In r (payments_rows db) ->
     payments.stripe_payment_intent_id r <> intent_id) ->
  consistent
    (with_payments db
       (payments_rows db ++
        [payments.mk (next_id (map payments.id (payments_rows db)))
           (products.id product) (str (users.id u)) intent_id "pending"
           (products.price_in_pence product)])).
Proof.
  intros Hproduct Hu Hnew. destruct Hdb. constructor; simpl; try assumption.
  - rewrite map_app. simpl. apply NoDup_appended; [assumption|].
    apply next_id_fresh.
  - unfold unique_intent_ids. simpl. rewrite map_app. simpl.
    apply NoDup_appended; [assumption|].
    intros Hin. apply in_map_iff in Hin. destruct Hin as (r & Er & Hr).
    exact (Hnew r Hr Er).
  - intros r Hr. apply in_app_or in Hr. destruct Hr as [Hr|[<-|[]]].
    + apply payment_statuses0. exact Hr.
    + left. reflexivity.
  - intros r Hr. apply in_app_or in Hr. destruct Hr as [Hr|[<-|[]]].
    + apply payment_products0. exact Hr.
    + exists product. repeat split. exact Hproduct.
  - intros r Hr. apply in_app_or in Hr. destruct Hr as [Hr|[<-|[]]].
    + apply payment_users0. exact Hr.
    + exists u. split; [exact Hu|reflexivity].
Qed.

Lemma consistent_updated (x s : string) :
  s = "succeeded" \/ s = "failed" ->
  consistent (with_payments db (map (update_row x s) (payments_rows db))).
Proof.
  intros Hs. destruct Hdb. constructor; simpl; try assumption.
  - rewrite map_map.
    rewrite (map_ext _ payments.id
               (fun r => proj1 (update_row_same_but_status x s r))).
    assumption.
  - apply (update_keeps_unique x s db). assumption.
  - intros r' Hr'. apply in_map_iff in Hr'. destruct Hr' as (r & <- & Hr).
    unfold update_row.
    destruct (payments.stripe_payment_intent_id r =? x).
    + simpl. right. exact Hs.
    + apply payment_statuses0. exact Hr.
  - intros r' Hr'. apply in_map_iff in Hr'. destruct Hr' as (r & <- & Hr).
    destruct (payment_products0 r Hr) as (p & Hp & Eid & Eprice).
    destruct (update_row_same_but_status x s r) as (_ & E1 & _ & _ & E2).
    exists p. rewrite E1, E2. repeat split; assumption.
  - intros r' Hr'. apply in_map_iff in Hr'. destruct Hr' as (r & <- & Hr).
    destruct (payment_users0 r Hr) as (u & Hu & Eu).
    destruct (update_row_same_but_status x s r) as (_ & _ & E & _).
    exists u. rewrite E. split; assumption.
Qed.

(** Serving one request keeps the store consistent. *)
Lemma step_consistent (db' : Database) : step db db' -> consistent db'.
Proof.
  intros Hstep. inversion Hstep; subst; clear Hstep.
  - destruct (register_user_store pwd_context user_in db)
      as [->|(hashed_pass & Hnew & ->)]; [exact Hdb|].
    apply consistent_user_appended. exact Hnew.
  - rewrite login_store. exact Hdb.
  - rewrite get_my_profile_store. exact Hdb.
  - unfold create_product, bind, execute_insert_product, ret.
    destruct (int32 _); [|exact Hdb].
    destruct (varchar _ _); [|exact Hdb].
    apply consistent_product_appended.
  - unfold authenticated_initiate_payment, and_then.
    destruct (get_current_user jwt key algorithm int token db)
      as [[u|e|c] db1] eqn:Ecurrent.
    + apply current_user_registered in Ecurrent.
      destruct Ecurrent as [Hu ->].
      unfold lift.
      pose proof (initiate_payment_store stripe intent_request
                    (as_UserOutput u) db) as Hshape.
      destruct (initiate_payment stripe intent_request (as_UserOutput u) db)
        as [[response|e] db2]; simpl in *;
        (destruct Hshape as [->|(product & payment_intent & Hp & Eid & Hnew & ->)];
         [exact Hdb|]);
        rewrite <- Eid; apply consistent_payment_appended; assumption.
    + pose proof (current_user_store jwt key algorithm int token db) as E.
      rewrite Ecurrent in E. simpl in *. subst db1. exact Hdb.
    + pose proof (current_user_store jwt key algorithm int token db) as E.
      rewrite Ecurrent in E. simpl in *. subst db1. exact Hdb.
  - unfold create_transaction, bind, execute_insert_transaction, ret.
    destruct (varchar 50%nat (tin_user_id txn_in));
      destruct (to_numeric (tin_amount txn_in));
      destruct (varchar 255%nat (tin_description txn_in)); try exact Hdb.
    apply consistent_transaction_appended.
  - simpl. exact Hdb.
  - destruct (webhook_store_known stripe secret request db)
      as [->|(x & s & Hs & ->)]; [exact Hdb|].
    apply consistent_updated. exact Hs.
Qed.

End Preservation.

(** X15.  Every store the application reaches from empty tables, by any
    sequence of requests to its routes and whatever passlib, python-jose
    and Stripe answer, is consistent: keys are unique in every table, no
    two users share an email, no two payments share a payment intent id,
    and every payment has status pending, succeeded or failed, names a
    product of the catalog whose price is the payment's amount, and names
    a registered user. *)
Theorem reachable_consistent (db : Database) :
  reachable db -> consistent db.
Proof.
  induction 1 as [|db db' _ IH Hstep].
  - constructor; unfold unique_product_ids, unique_intent_ids; simpl;
      first [apply NoDup_nil | intros r []].
  - exact (step_consistent db IH db' Hstep).
Qed.

Lemma reachable_consistent_witness :
  consistent
    (snd (create_product up_to (mkProductInput "Widget" 1999)
            (snd (register_user tagging_context
                    (mkUserCreate "payment_user@example.com" "password123")
                    (mkDatabase [] [] [] []))))).
Proof.
  apply (reachable_consistent
           (snd (create_product up_to (mkProductInput "Widget" 1999)
                   (snd (register_user tagging_context
                           (mkUserCreate "payment_user@example.com"
                              "password123")
                           (mkDatabase [] [] [] [])))))).
  eapply reachable_step; [|apply step_create_product].
  eapply reachable_step; [apply reachable_empty|apply step_register_user].
Defined.

(** X16.  [initiate_payment] does return: with the product in the catalog
    and the gateway returning a payment intent whose id no stored payment
    has, the answer is the intent's id and client secret. *)
Theorem initiate_payment_does_return
    (stripe : Stripe) (intent_request : PaymentIntentRequest)
    (current_user : UserOutput) (db : Database)
    (product : products.row) (payment_intent : PaymentIntent) :
  unique_product_ids db ->
  In product (products_rows db) ->
  products.id product = product_id intent_request ->
  PaymentIntent_create stripe (products.price_in_pence product) "gbp"
    (metadata (uo_id current_user) (product_id intent_request))
  = Created payment_intent ->
  (forall r, In r (payments_rows db) ->
     payments.stripe_payment_intent_id r <> pi_id payment_intent) ->
  exists db',
    initiate_payment stripe intent_request current_user db
    = (Return (mkPaymentIntentResponse (pi_client_secret payment_intent)
                 (pi_id payment_intent)),
       db') /\
    List.length (payments_rows db') = S (List.length (payments_rows db)).
Proof.
  intros U Hin Hid Hcreated Hfresh.
  rewrite (initiate_payment_found stripe intent_request current_user db
             product U Hin Hid), Hcreated.
  unfold bind, execute_insert_payment, ret.
  destruct (existsb _ _) eqn:E.
  - apply existsb_exists in E. destruct E as (r & Hr & Er).
    apply String.eqb_eq in Er. destruct (Hfresh r Hr Er).
  - eexists. split; [reflexivity|].
    simpl. rewrite length_app. simpl. lia.
Qed.

Lemma initiate_payment_does_return_witness :
  exists db',
    initiate_payment (patched (Created pi_1) (ValueError "not patched"))
      (mkPaymentIntentRequest 1) payer db_catalog
    = (Return (mkPaymentIntentResponse (pi_client_secret pi_1) (pi_id pi_1)),
       db') /\
    List.length (payments_rows db')
    = S (List.length (payments_rows db_catalog)).
Proof.
  apply (initiate_payment_does_return
           (patched (Created pi_1) (ValueError "not patched"))
           (mkPaymentIntentRequest 1) payer db_catalog widget pi_1).
  - repeat constructor. intros [].
  - left. reflexivity.
  - reflexivity.
  - reflexivity.
  - intros r [].
Defined.

(* ================================================================== *)
(** ** Keys outside the INTEGER range *)

(** In a table whose keys are INTEGERs, a key outside the range is never
    found: the lookup is the driver's [DataError]. *)
Lemma fetch_one_product_out_of_range (pid : Z) (db : Database) :
  (forall p, In p (products_rows db) -> int32 (products.id p) = true) ->
  int32 pid = false ->
  fetch_one_product pid db = (Raise out_of_int32, db).
Proof.
  intros Hkeys Hpid. unfold fetch_one_product.
  rewrite find_product_absent, Hpid; [reflexivity|].
  intros p Hp E. rewrite <- E, (Hkeys p Hp) in Hpid. discriminate.
Qed.

Lemma fetch_one_user_out_of_range (id : Z) (db : Database) :
  (forall u, In u (users_rows db) -> int32 (users.id u) = true) ->
  int32 id = false ->
  fetch_one_user_by_id id db = (Raise out_of_int32, db).
Proof.
  intros Hkeys Hid. unfold fetch_one_user_by_id.
  rewrite find_no_match, Hid; [reflexivity|].
  intros u Hu. apply Z.eqb_neq. intros E.
  rewrite <- E, (Hkeys u Hu) in Hid. discriminate.
Qed.

Example product_2147483648_is_a_500 :
  initiate_payment (patched (Created pi_1) (ValueError "not patched"))
    (mkPaymentIntentRequest 2147483648) payer db_catalog
  = (Raise (DataError "value out of int32 range"), db_catalog).
Proof. reflexivity. Qed.

Example product_minus_2147483649_is_a_500 :
  initiate_payment (patched (Created pi_1) (ValueError "not patched"))
    (mkPaymentIntentRequest (-2147483649)) payer db_catalog
  = (Raise (DataError "value out of int32 range"), db_catalog).
Proof. reflexivity. Qed.

Example product_2147483647_is_a_404 :
  initiate_payment (patched (Created pi_1) (ValueError "not patched"))
    (mkPaymentIntentRequest 2147483647) payer db_catalog
  = (Raise (HTTPException 404 "Product not found"), db_catalog).
Proof. reflexivity. Qed.

Example user_2147483648_is_a_500 :
  get_current_user big_sub_token "secret" "HS256" int_of_decimal
    "header.payload.signature" db_catalog
  = (Raised (DataError "value out of int32 range"), db_catalog).
Proof. reflexivity. Qed.

Example price_2147483648_is_refused :
  create_product up_to (mkProductInput "Gadget" 2147483648) db_catalog
  = (Raise (DataError "value out of int32 range"), db_catalog).
Proof. reflexivity. Qed.

Example long_user_id_is_refused :
  create_transaction up_to Z Some
    (mkTransactionInput
       "a-user-id-of-fifty-one-characters-is-one-too-many!!" 5000
       "Test transaction")
    db_catalog
  = (Raise (DataError "value too long for type character varying"),
     db_catalog).
Proof. reflexivity. Qed.
